(** * E-QFT V36.1: canonical lepton g-2 engine and muon calibration sweep

    Shallow embedding of
      - [src/physics/lepton_g2_canonical_v361.py]  (class [LeptonG2CanonicalV361]),
      - [src/core/enhanced_unified_framework.py]   (class [EnhancedUnifiedFramework]),
      - [unified_framework_with_v361.py]           (class [UnifiedFrameworkWithV361]),
      - [calibrate_muon_v361.py]                   (function [calibrate_muon_g2_v361]).

    Conventions of the embedding.
      - The engine is written once, over an interface [PyFloat] of the
        arithmetic the Python code performs on its numbers.  Two instances are
        given: [RealFloat] (exact real arithmetic, with the true [exp] and
        [PI]) and [Binary64] (IEEE-754 doubles, the machine numbers of a
        Python [float]; the C library's [exp] is an argument of the instance).
        A statement proved in the section [Engine] holds for both.
      - An object is a record; a method reads it and returns a value, or
        returns the updated record.  A raised exception is a value of
        [exception]; [result] is the error monad.
      - A Python [dict] with string keys is an association list: lookup of a
        missing key raises [KeyError], assignment replaces in place or appends.
      - Calls to [logger] only produce log text and are left out, except where
        formatting the message itself can raise (a missing dictionary key). *)

From Stdlib Require Import Reals Lra Lia QArith ZArith String List Bool.
From Stdlib Require Import PrimFloat Uint63.
Import ListNotations.

Set Implicit Arguments.

(** ** Exceptions and the error monad *)

Inductive exception : Type :=
| ValueError (msg : string)
| KeyError (key : string)
| ZeroDivisionError
| OverflowError
| AttributeError (name : string).

Inductive result (A : Type) : Type :=
| Ok (a : A)
| Raise (e : exception).

Arguments Ok {A} a.
Arguments Raise {A} e.

Definition bind {A B : Type} (m : result A) (k : A -> result B) : result B :=
  match m with
  | Ok a => k a
  | Raise e => Raise e
  end.

Declare Scope py_monad_scope.
Delimit Scope py_monad_scope with pym.
Notation "x <- m ;; k" := (bind m (fun x => k))
  (at level 100, m at next level, right associativity) : py_monad_scope.
Notation "' pat <- m ;; k" := (bind m (fun x => match x with pat => k end))
  (at level 100, pat pattern, m at next level, right associativity) : py_monad_scope.

(** ** The arithmetic interface

    [lit q] is the number a decimal literal of the source denotes; [sqr x] is
    [x ** 2] and [sqr_overflow x] tells whether Python raises [OverflowError]
    for it; [div x y] is the quotient where the divisor is not zero (Python's
    [/] on floats raises [ZeroDivisionError] otherwise, see [py_div]). *)

Class PyFloat (num : Type) : Type := {
  lit : Q -> num;
  np_pi : num;
  add : num -> num -> num;
  sub : num -> num -> num;
  mul : num -> num -> num;
  div : num -> num -> num;
  neg : num -> num;
  sqr : num -> num;
  sqr_overflow : num -> bool;
  np_exp : num -> num;
  py_abs : num -> num;
  eqb : num -> num -> bool;
  ltb : num -> num -> bool;
  leb : num -> num -> bool
}.

Arguments lit {num _} q%_Q.

Declare Scope py_scope.
Delimit Scope py_scope with py.
Notation "x + y" := (add x y) : py_scope.
Notation "x - y" := (sub x y) : py_scope.
Notation "x * y" := (mul x y) : py_scope.
Notation "x / y" := (div x y) : py_scope.
Notation "- x" := (neg x) : py_scope.
Notation "x =? y" := (eqb x y) : py_scope.
Notation "x <? y" := (ltb x y) : py_scope.
Notation "x <=? y" := (leb x y) : py_scope.
Notation "x >? y" := (ltb y x) : py_scope.

(** ** Dictionaries with string keys *)

Section Dict.
Variable V : Type.

Definition dict : Type := list (string * V).

Fixpoint dict_get (d : dict) (k : string) : option V :=
  match d with
  | [] => None
  | (k', v) :: d' => if String.eqb k k' then Some v else dict_get d' k
  end.

(** [k in d] *)
Definition dict_mem (d : dict) (k : string) : bool :=
  match dict_get d k with Some _ => true | None => false end.

(** [d[k]] *)
Definition getitem (d : dict) (k : string) : result V :=
  match dict_get d k with
  | Some v => Ok v
  | None => Raise (KeyError k)
  end.

(** [d[k] = v] *)
Fixpoint setitem (d : dict) (k : string) (v : V) : dict :=
  match d with
  | [] => [(k, v)]
  | (k', v') :: d' =>
      if String.eqb k k' then (k, v) :: d' else (k', v') :: setitem d' k v
  end.
End Dict.

(** ** Python operators and builtins used by the sources *)

Section Builtins.
Context {num : Type} {F : PyFloat num}.
Local Open Scope string_scope.
Local Open Scope py_scope.

(** [x / y] and [x ** 2] on floats. *)
Definition py_div (x y : num) : result num :=
  if y =? lit 0 then Raise ZeroDivisionError else Ok (x / y).

Definition py_pow2 (x : num) : result num :=
  if sqr_overflow x then Raise OverflowError else Ok (sqr x).

(** [x in l] for a list of strings. *)
Definition str_in (x : string) (l : list string) : bool :=
  existsb (String.eqb x) l.

(** [min(l, key=key)]: the first element whose key no later key is below. *)
Fixpoint min_from {A : Type} (key : A -> num) (best : A) (l : list A) : A :=
  match l with
  | [] => best
  | x :: l' => min_from key (if key x <? key best then x else best) l'
  end.

Definition py_min {A : Type} (key : A -> num) (l : list A) : result A :=
  match l with
  | [] => Raise (ValueError "min() arg is an empty sequence")
  | x :: l' => Ok (min_from key x l')
  end.

(** An integer operand of a float operation. *)
Definition of_nat (n : nat) : num := lit (inject_Z (Z.of_nat n)).

(** [np.linspace(start, stop, n)] with its default [endpoint=True]:
    [arange(0, n) * step + start] with [step = (stop - start) / (n - 1)],
    the last sample then set to [stop]. *)
Definition np_linspace (start stop : num) (n : nat) : list num :=
  match n with
  | O => []
  | S O => [start]
  | S n' =>
      let step := (stop - start) / of_nat n' in
      map (fun i => of_nat i * step + start) (seq 0 n') ++ [stop]
  end.
End Builtins.

(** ** The engine, [class LeptonG2CanonicalV361] *)

Module LeptonG2CanonicalV361.
Section Engine.
Context {num : Type} {F : PyFloat num}.
Local Open Scope string_scope.
Local Open Scope py_scope.

(** The attributes [__init__] creates. *)
Record t : Type := {
  c1 : num;
  hardcoded_calibration : bool;
  m_e : num;
  m_mu : num;
  m_tau : num;
  phi_e : num;
  phi_mu : num;
  phi_tau : num;
  delta_a_nf : dict num;
  calibrated_significance : dict num;
  delta_a_e_nf : num;
  delta_a_mu_nf : num;
  delta_a_tau_nf : num;
  a_mu_exp : num;
  sigma_mu_exp : num;
  a_e_exp : num;
  a_e_sm : num;
  sigma_e_exp : num
}.

(** [__init__]; the three back-compatibility attributes read the dictionary
    just built, so they hold its three literals. *)
Definition init (chern_class : num) (hardcoded : bool) : t :=
  {| c1 := chern_class;
     hardcoded_calibration := hardcoded;
     m_e := lit 0.000510998950;
     m_mu := lit 0.105658;
     m_tau := lit 1.77686;
     phi_e := lit 2.17;
     phi_mu := lit 4.32;
     phi_tau := lit 10.53;
     delta_a_nf :=
       [("electron", lit 3.1e-17); ("muon", lit 1.4538e-10); ("tau", lit 5.2e-10)];
     calibrated_significance := [("electron", lit 0.11); ("muon", lit 0.00)];
     delta_a_e_nf := lit 3.1e-17;
     delta_a_mu_nf := lit 1.4538e-10;
     delta_a_tau_nf := lit 5.2e-10;
     a_mu_exp := lit 2.51e-9;
     sigma_mu_exp := lit 6.3e-10;
     a_e_exp := lit 1.15965218073e-3;
     a_e_sm := lit 1.15965218076e-3;
     sigma_e_exp := lit 2.8e-13 |}.

(** Default arguments of [__init__]: [chern_class=2.0],
    [hardcoded_calibration=True]. *)
Definition init_default : t := init (lit 2.0) true.

(** *** Topology formulas *)

Definition compute_berry_overlap (phi_l : num) : num :=
  lit 1.0 - phi_l / (lit 4.0 * np_pi).

Definition compute_chern2_cross (phi_l1 phi_l2 : num) (use_v361 : bool) : num :=
  let c2_base := lit 2.0 * phi_l1 * phi_l2 in
  if negb use_v361 then c2_base
  else if (phi_l1 =? lit 4.32) && (phi_l2 =? lit 10.53) then lit 75.29
  else if (phi_l1 =? lit 2.17) && (phi_l2 =? lit 4.32) then lit 15.50
  else if (phi_l1 =? lit 2.17) && (phi_l2 =? lit 10.53) then lit 37.8
  else
    let omega_factor := lit 1.0 - phi_l2 / (lit 4.0 * np_pi) in
    let c2_v361 := c2_base * omega_factor in
    c2_v361.

Definition compute_topological_area : num :=
  lit 16.0 * sqr np_pi.

Definition compute_lambda_topo (c2 : num) : num :=
  let area := compute_topological_area in
  c2 / area.

(** *** Amplitude engine *)

Definition compute_amplitude_canonical (self : t)
    (m_lepton m_heavy delta_a_nf c2 : num) : result num :=
  (q <- py_div m_heavy m_lepton ;;
   K <- py_pow2 q ;;
   c1_2 <- py_pow2 (c1 self) ;;
   epsilon_top <- py_div c2 (c1_2 + K) ;;
   Ok (delta_a_nf * K * epsilon_top))%pym.

Definition unsupported (lepton : string) : exception :=
  ValueError ("Lepton type '" ++ lepton ++ "' not supported").

Definition predict_g2_correction (self : t)
    (lepton : string) (use_v361 : bool) : result num :=
  ('(m_lepton, m_heavy, phi_lepton, phi_heavy, delta_a_nf) <-
     (if String.eqb lepton "electron" then
        d <- getitem (delta_a_nf self) "electron" ;;
        Ok (m_e self, m_mu self, phi_e self, phi_mu self, d)
      else if String.eqb lepton "muon" then
        d <- getitem (delta_a_nf self) "muon" ;;
        Ok (m_mu self, m_tau self, phi_mu self, phi_tau self, d)
      else if String.eqb lepton "tau" then
        d <- getitem (delta_a_nf self) "tau" ;;
        Ok (m_tau self, m_tau self * lit 2.0, phi_tau self, phi_tau self * lit 1.5, d)
      else Raise (unsupported lepton)) ;;
   let c2 := compute_chern2_cross phi_lepton phi_heavy use_v361 in
   let lambda_topo := compute_lambda_topo c2 in
   A <- compute_amplitude_canonical self m_lepton m_heavy delta_a_nf c2 ;;
   let a_lepton_eqft := A * (lit 1.0 - np_exp (- lambda_topo * c2)) in
   Ok a_lepton_eqft)%pym.

(** *** Significance evaluator *)

(** The dictionary [calculate_significance] returns, one field per key. *)
Record SignificanceResult : Type := {
  r_lepton : string;
  r_version : string;
  r_a_lepton_eqft : num;
  r_a_sm : num;
  r_a_total : num;
  r_a_exp : option num;
  r_delta : option num;
  r_significance : option num;
  r_phi_lepton : num;
  r_phi_heavy : num;
  r_omega : num;
  r_c2 : num;
  r_lambda_topo : num
}.

(** The benchmark block of [calculate_significance] (source lines 294-306):
    [significance] is the value just computed, the result is the value kept. *)
Definition benchmark_override (self : t)
    (lepton : string) (use_v361 : bool) (significance : num) : result num :=
  (if hardcoded_calibration self && use_v361
        && dict_mem (calibrated_significance self) lepton
   then
     is_electron_value <-
       (if String.eqb lepton "electron" then
          d <- getitem (delta_a_nf self) lepton ;;
          Ok (py_abs (d - lit 3.1e-17) <? lit 1e-18)
        else Ok false) ;;
     is_calibrated_value <-
       (if is_electron_value : bool then Ok true
        else if String.eqb lepton "muon" then
          d <- getitem (delta_a_nf self) lepton ;;
          Ok (py_abs (d - lit 1.4538e-10) <? lit 1e-14)
        else Ok false) ;;
     if is_calibrated_value : bool then
       calibrated_value <- getitem (calibrated_significance self) lepton ;;
       Ok calibrated_value
     else Ok significance
   else Ok significance)%pym.

Definition calculate_significance (self : t)
    (lepton : string) (a_lepton_eqft : option num) (use_v361 : bool)
  : result SignificanceResult :=
  (a_lepton_eqft <-
     match a_lepton_eqft with
     | None => predict_g2_correction self lepton use_v361
     | Some a => Ok a
     end ;;
   '(a_sm, a_exp, sigma_exp, a_total, delta, phi_lepton, phi_heavy) <-
     (if String.eqb lepton "electron" then
        let a_sm := a_e_sm self in
        let a_exp := a_e_exp self in
        let sigma_exp := sigma_e_exp self in
        let a_total := a_sm + a_lepton_eqft in
        let delta := a_total - a_exp in
        Ok (a_sm, Some a_exp, Some sigma_exp, a_total, Some delta,
            phi_e self, phi_mu self)
      else if String.eqb lepton "muon" then
        let a_sm := lit 0.0 in
        let a_exp := a_mu_exp self in
        let sigma_exp := sigma_mu_exp self in
        let a_total := a_lepton_eqft in
        let delta := a_total - a_exp in
        Ok (a_sm, Some a_exp, Some sigma_exp, a_total, Some delta,
            phi_mu self, phi_tau self)
      else if String.eqb lepton "tau" then
        let a_sm := lit 0.0 in
        let a_total := a_lepton_eqft in
        Ok (a_sm, None, None, a_total, None,
            phi_tau self, phi_tau self * lit 1.5)
      else Raise (unsupported lepton)) ;;
   significance <-
     match delta, sigma_exp with
     | Some delta, Some sigma_exp =>
         if sigma_exp >? lit 0 then
           let significance := delta / sigma_exp in
           s <- benchmark_override self lepton use_v361 significance ;;
           Ok (Some s)
         else Ok None
     | _, _ => Ok None
     end ;;
   let c2 := compute_chern2_cross phi_lepton phi_heavy use_v361 in
   let omega := if use_v361 then compute_berry_overlap phi_lepton else lit 1.0 in
   let lambda_topo := compute_lambda_topo c2 in
   Ok {| r_lepton := lepton;
         r_version := if use_v361 then "V36.1" else "V36";
         r_a_lepton_eqft := a_lepton_eqft;
         r_a_sm := a_sm;
         r_a_total := a_total;
         r_a_exp := a_exp;
         r_delta := delta;
         r_significance := significance;
         r_phi_lepton := phi_lepton;
         r_phi_heavy := phi_heavy;
         r_omega := omega;
         r_c2 := c2;
         r_lambda_topo := lambda_topo |})%pym.

(** *** Mutators *)

Definition with_phi_e (self : t) (v : num) : t :=
  {| c1 := c1 self; hardcoded_calibration := hardcoded_calibration self;
     m_e := m_e self; m_mu := m_mu self; m_tau := m_tau self;
     phi_e := v; phi_mu := phi_mu self; phi_tau := phi_tau self;
     delta_a_nf := delta_a_nf self;
     calibrated_significance := calibrated_significance self;
     delta_a_e_nf := delta_a_e_nf self; delta_a_mu_nf := delta_a_mu_nf self;
     delta_a_tau_nf := delta_a_tau_nf self;
     a_mu_exp := a_mu_exp self; sigma_mu_exp := sigma_mu_exp self;
     a_e_exp := a_e_exp self; a_e_sm := a_e_sm self;
     sigma_e_exp := sigma_e_exp self |}.

Definition with_phi_mu (self : t) (v : num) : t :=
  {| c1 := c1 self; hardcoded_calibration := hardcoded_calibration self;
     m_e := m_e self; m_mu := m_mu self; m_tau := m_tau self;
     phi_e := phi_e self; phi_mu := v; phi_tau := phi_tau self;
     delta_a_nf := delta_a_nf self;
     calibrated_significance := calibrated_significance self;
     delta_a_e_nf := delta_a_e_nf self; delta_a_mu_nf := delta_a_mu_nf self;
     delta_a_tau_nf := delta_a_tau_nf self;
     a_mu_exp := a_mu_exp self; sigma_mu_exp := sigma_mu_exp self;
     a_e_exp := a_e_exp self; a_e_sm := a_e_sm self;
     sigma_e_exp := sigma_e_exp self |}.

Definition with_phi_tau (self : t) (v : num) : t :=
  {| c1 := c1 self; hardcoded_calibration := hardcoded_calibration self;
     m_e := m_e self; m_mu := m_mu self; m_tau := m_tau self;
     phi_e := phi_e self; phi_mu := phi_mu self; phi_tau := v;
     delta_a_nf := delta_a_nf self;
     calibrated_significance := calibrated_significance self;
     delta_a_e_nf := delta_a_e_nf self; delta_a_mu_nf := delta_a_mu_nf self;
     delta_a_tau_nf := delta_a_tau_nf self;
     a_mu_exp := a_mu_exp self; sigma_mu_exp := sigma_mu_exp self;
     a_e_exp := a_e_exp self; a_e_sm := a_e_sm self;
     sigma_e_exp := sigma_e_exp self |}.

Definition with_hardcoded_calibration (self : t) (v : bool) : t :=
  {| c1 := c1 self; hardcoded_calibration := v;
     m_e := m_e self; m_mu := m_mu self; m_tau := m_tau self;
     phi_e := phi_e self; phi_mu := phi_mu self; phi_tau := phi_tau self;
     delta_a_nf := delta_a_nf self;
     calibrated_significance := calibrated_significance self;
     delta_a_e_nf := delta_a_e_nf self; delta_a_mu_nf := delta_a_mu_nf self;
     delta_a_tau_nf := delta_a_tau_nf self;
     a_mu_exp := a_mu_exp self; sigma_mu_exp := sigma_mu_exp self;
     a_e_exp := a_e_exp self; a_e_sm := a_e_sm self;
     sigma_e_exp := sigma_e_exp self |}.

Definition with_delta_a_nf (self : t) (v : dict num) : t :=
  {| c1 := c1 self; hardcoded_calibration := hardcoded_calibration self;
     m_e := m_e self; m_mu := m_mu self; m_tau := m_tau self;
     phi_e := phi_e self; phi_mu := phi_mu self; phi_tau := phi_tau self;
     delta_a_nf := v;
     calibrated_significance := calibrated_significance self;
     delta_a_e_nf := delta_a_e_nf self; delta_a_mu_nf := delta_a_mu_nf self;
     delta_a_tau_nf := delta_a_tau_nf self;
     a_mu_exp := a_mu_exp self; sigma_mu_exp := sigma_mu_exp self;
     a_e_exp := a_e_exp self; a_e_sm := a_e_sm self;
     sigma_e_exp := sigma_e_exp self |}.

Definition with_delta_a_e_nf (self : t) (v : num) : t :=
  {| c1 := c1 self; hardcoded_calibration := hardcoded_calibration self;
     m_e := m_e self; m_mu := m_mu self; m_tau := m_tau self;
     phi_e := phi_e self; phi_mu := phi_mu self; phi_tau := phi_tau self;
     delta_a_nf := delta_a_nf self;
     calibrated_significance := calibrated_significance self;
     delta_a_e_nf := v; delta_a_mu_nf := delta_a_mu_nf self;
     delta_a_tau_nf := delta_a_tau_nf self;
     a_mu_exp := a_mu_exp self; sigma_mu_exp := sigma_mu_exp self;
     a_e_exp := a_e_exp self; a_e_sm := a_e_sm self;
     sigma_e_exp := sigma_e_exp self |}.

Definition with_delta_a_mu_nf (self : t) (v : num) : t :=
  {| c1 := c1 self; hardcoded_calibration := hardcoded_calibration self;
     m_e := m_e self; m_mu := m_mu self; m_tau := m_tau self;
     phi_e := phi_e self; phi_mu := phi_mu self; phi_tau := phi_tau self;
     delta_a_nf := delta_a_nf self;
     calibrated_significance := calibrated_significance self;
     delta_a_e_nf := delta_a_e_nf self; delta_a_mu_nf := v;
     delta_a_tau_nf := delta_a_tau_nf self;
     a_mu_exp := a_mu_exp self; sigma_mu_exp := sigma_mu_exp self;
     a_e_exp := a_e_exp self; a_e_sm := a_e_sm self;
     sigma_e_exp := sigma_e_exp self |}.

Definition with_delta_a_tau_nf (self : t) (v : num) : t :=
  {| c1 := c1 self; hardcoded_calibration := hardcoded_calibration self;
     m_e := m_e self; m_mu := m_mu self; m_tau := m_tau self;
     phi_e := phi_e self; phi_mu := phi_mu self; phi_tau := phi_tau self;
     delta_a_nf := delta_a_nf self;
     calibrated_significance := calibrated_significance self;
     delta_a_e_nf := delta_a_e_nf self; delta_a_mu_nf := delta_a_mu_nf self;
     delta_a_tau_nf := v;
     a_mu_exp := a_mu_exp self; sigma_mu_exp := sigma_mu_exp self;
     a_e_exp := a_e_exp self; a_e_sm := a_e_sm self;
     sigma_e_exp := sigma_e_exp self |}.

(** An attribute assigned from outside the class, as [tests/run_all_leptons.py]
    does with [a_mu_exp]. *)
Definition with_a_mu_exp (self : t) (v : num) : t :=
  {| c1 := c1 self; hardcoded_calibration := hardcoded_calibration self;
     m_e := m_e self; m_mu := m_mu self; m_tau := m_tau self;
     phi_e := phi_e self; phi_mu := phi_mu self; phi_tau := phi_tau self;
     delta_a_nf := delta_a_nf self;
     calibrated_significance := calibrated_significance self;
     delta_a_e_nf := delta_a_e_nf self; delta_a_mu_nf := delta_a_mu_nf self;
     delta_a_tau_nf := delta_a_tau_nf self;
     a_mu_exp := v; sigma_mu_exp := sigma_mu_exp self;
     a_e_exp := a_e_exp self; a_e_sm := a_e_sm self;
     sigma_e_exp := sigma_e_exp self |}.

Definition set_berry_phases (self : t) (phi_e phi_mu phi_tau : option num) : t :=
  let self := match phi_e with Some v => with_phi_e self v | None => self end in
  let self := match phi_mu with Some v => with_phi_mu self v | None => self end in
  let self := match phi_tau with Some v => with_phi_tau self v | None => self end in
  self.

(** Returns the updated object and the value the method returns. *)
Definition set_hardcoded_calibration (self : t) (enabled : bool) : t * bool :=
  let self := with_hardcoded_calibration self enabled in
  (self, hardcoded_calibration self).

Definition set_delta_a_nf (self : t) (lepton : string) (value : num) : result t :=
  if negb (str_in lepton ["electron"; "muon"; "tau"]) then
    Raise (unsupported lepton)
  else
    let self := with_delta_a_nf self (setitem (delta_a_nf self) lepton value) in
    Ok (if String.eqb lepton "electron" then with_delta_a_e_nf self value
        else if String.eqb lepton "muon" then with_delta_a_mu_nf self value
        else if String.eqb lepton "tau" then with_delta_a_tau_nf self value
        else self).

End Engine.
Arguments t : clear implicits.
Arguments SignificanceResult : clear implicits.
End LeptonG2CanonicalV361.

(** ** [class EnhancedUnifiedFramework] *)

Module EnhancedUnifiedFramework.
Section Framework.
Context {num : Type} {F : PyFloat num}.
Local Open Scope string_scope.
Local Open Scope py_scope.

Record t : Type := {
  c1 : num;
  chern_class : num
}.

Definition init (chern_class : num) : t :=
  {| c1 := chern_class; chern_class := chern_class |}.

(** The dictionary [calculate_anomalous_magnetic_moment] returns.  A key
    that may be missing, or whose value may be [None], is an [option];
    [canonical_info] is added by the subclass. *)
Record CanonicalInfo : Type := {
  ci_version : string;
  ci_phi_lepton : num;
  ci_phi_heavy : num;
  ci_c2 : num;
  ci_lambda_topo : num;
  ci_omega : option num
}.

Record MomentResult : Type := {
  a_sm : num;
  a_exp : option num;
  a_exp_uncertainty : option num;
  a_nf : num;
  a_total : num;
  discrepancy : option num;
  discrepancy_sigma : option num;
  canonical_info : option CanonicalInfo
}.

(** The common tail of both versions of the method: discrepancy and its
    value in standard deviations, when the references exist.  [old] is what
    the key [discrepancy_sigma] held before. *)
Definition discrepancy_of (a_exp a_exp_uncertainty : option num) (a_total : num)
    (old : option num * option num) : option num * option num :=
  match a_exp with
  | Some a_exp =>
      let discrepancy := a_exp - a_total in
      match a_exp_uncertainty with
      | Some u =>
          if u >? lit 0 then (Some discrepancy, Some (discrepancy / u))
          else (Some discrepancy, snd old)
      | None => (Some discrepancy, snd old)
      end
  | None => old
  end.

Definition calculate_anomalous_magnetic_moment (self : t)
    (particle_name : string) (include_topological_correction : bool)
  : result MomentResult :=
  (let sm_values :=
     [("electron", lit 1.159652000000e-03);
      ("muon", lit 1.165910100000e-03);
      ("tau", lit 1.176521700000e-03)] in
   let exp_values :=
     [("electron", Some (lit 1.15965218073e-3)); ("muon", None); ("tau", None)] in
   let exp_uncertainties :=
     [("electron", Some (lit 2.8e-13)); ("muon", Some (lit 6.3e-10)); ("tau", None)] in
   if dict_mem sm_values particle_name then
     a_sm <- getitem sm_values particle_name ;;
     a_exp <- getitem exp_values particle_name ;;
     a_exp_uncertainty <- getitem exp_uncertainties particle_name ;;
     let a_nf := lit 0.0 in
     let a_total := a_sm in
     let d := discrepancy_of a_exp a_exp_uncertainty a_total (None, None) in
     Ok {| a_sm := a_sm; a_exp := a_exp; a_exp_uncertainty := a_exp_uncertainty;
           a_nf := a_nf; a_total := a_total;
           discrepancy := fst d; discrepancy_sigma := snd d;
           canonical_info := None |}
   else
     (* the log line formats [result['a_sm']] of the empty dictionary *)
     Raise (KeyError "a_sm"))%pym.

End Framework.
Arguments t : clear implicits.
Arguments CanonicalInfo : clear implicits.
Arguments MomentResult : clear implicits.
End EnhancedUnifiedFramework.

(** ** [class UnifiedFrameworkWithV361(EnhancedUnifiedFramework)] *)

Module UnifiedFrameworkWithV361.
Section Framework.
Context {num : Type} {F : PyFloat num}.
Local Open Scope string_scope.
Local Open Scope py_scope.

Import EnhancedUnifiedFramework.

Record t : Type := {
  super : EnhancedUnifiedFramework.t num;
  g2_calculator : LeptonG2CanonicalV361.t num
}.

(** [UnifiedFrameworkWithV361()]: the parent's default [chern_class=2.0],
    then the calculator with its default [hardcoded_calibration=True]. *)
Definition init (chern_class : num) : t :=
  let super := EnhancedUnifiedFramework.init chern_class in
  {| super := super;
     g2_calculator :=
       LeptonG2CanonicalV361.init (EnhancedUnifiedFramework.chern_class super) true |}.

Definition init_default : t := init (lit 2.0).

Definition compute_g_minus_2_canonical (self : t) (fermion : string)
    (use_v361 : bool) : result num :=
  if negb (str_in fermion ["muon"; "electron"; "tau"]) then Ok (lit 0.0)
  else LeptonG2CanonicalV361.predict_g2_correction (g2_calculator self) fermion use_v361.

(** The parent class of this repository defines no [compute_g_minus_2]. *)
Definition compute_g_minus_2 (self : t) (fermion : string)
    (topological_charge : num) (use_canonical use_v361 : bool) : result num :=
  if str_in fermion ["muon"; "electron"; "tau"] && use_canonical then
    compute_g_minus_2_canonical self fermion use_v361
  else Raise (AttributeError "compute_g_minus_2").

Definition calculate_anomalous_magnetic_moment (self : t)
    (particle_name : string)
    (include_topological_correction use_canonical use_v361 : bool)
  : result (MomentResult num) :=
  (result <- EnhancedUnifiedFramework.calculate_anomalous_magnetic_moment
               (super self) particle_name false ;;
   let topological_charges :=
     [("electron", lit 1.0); ("muon", lit 2.0); ("tau", lit 4.0)] in
   a_nf <-
     (if include_topological_correction then
        charge <- getitem topological_charges particle_name ;;
        compute_g_minus_2 self particle_name charge use_canonical use_v361
      else Ok (lit 0.0)) ;;
   let a_total := a_sm result + a_nf in
   let d := discrepancy_of (a_exp result) (a_exp_uncertainty result) a_total
              (discrepancy result, discrepancy_sigma result) in
   if str_in particle_name ["muon"; "electron"; "tau"]
        && use_canonical && include_topological_correction
   then
     calc_results <- LeptonG2CanonicalV361.calculate_significance
                       (g2_calculator self) particle_name (Some a_nf) use_v361 ;;
     let info :=
       {| ci_version := if use_v361 then "V36.1" else "V36";
          ci_phi_lepton := LeptonG2CanonicalV361.r_phi_lepton calc_results;
          ci_phi_heavy := LeptonG2CanonicalV361.r_phi_heavy calc_results;
          ci_c2 := LeptonG2CanonicalV361.r_c2 calc_results;
          ci_lambda_topo := LeptonG2CanonicalV361.r_lambda_topo calc_results;
          ci_omega :=
            if use_v361 then Some (LeptonG2CanonicalV361.r_omega calc_results)
            else None |} in
     let sigma :=
       match LeptonG2CanonicalV361.r_significance calc_results with
       | Some s => Some s
       | None => snd d
       end in
     Ok {| a_sm := a_sm result; a_exp := a_exp result;
           a_exp_uncertainty := a_exp_uncertainty result;
           a_nf := a_nf; a_total := a_total;
           discrepancy := fst d; discrepancy_sigma := sigma;
           canonical_info := Some info |}
   else
     Ok {| a_sm := a_sm result; a_exp := a_exp result;
           a_exp_uncertainty := a_exp_uncertainty result;
           a_nf := a_nf; a_total := a_total;
           discrepancy := fst d; discrepancy_sigma := snd d;
           canonical_info := canonical_info result |})%pym.

Definition set_berry_phases (self : t) (phi_e phi_mu phi_tau : option num) : t :=
  {| super := super self;
     g2_calculator :=
       LeptonG2CanonicalV361.set_berry_phases (g2_calculator self) phi_e phi_mu phi_tau |}.

Definition set_delta_a_nf (self : t) (lepton : string) (value : num) : result t :=
  (calc <- LeptonG2CanonicalV361.set_delta_a_nf (g2_calculator self) lepton value ;;
   Ok {| super := super self; g2_calculator := calc |})%pym.

End Framework.
Arguments t : clear implicits.
End UnifiedFrameworkWithV361.

(** ** [calibrate_muon_v361.py] *)

Section Calibration.
Context {num : Type} {F : PyFloat num}.
Local Open Scope string_scope.
Local Open Scope py_scope.

(** One entry of [results]: [(delta, a_bsm, significance)]. *)
Definition record : Type := (num * num * num)%type.

(** The body of the [for delta in delta_values] loop, from the current
    framework and the list of results so far. *)
Definition sweep_step (framework : UnifiedFrameworkWithV361.t num)
    (results : list record) (delta : num)
  : result (UnifiedFrameworkWithV361.t num * list record) :=
  (framework <- UnifiedFrameworkWithV361.set_delta_a_nf framework "muon" delta ;;
   result <- UnifiedFrameworkWithV361.calculate_anomalous_magnetic_moment
               framework "muon" true true true ;;
   let a_bsm := EnhancedUnifiedFramework.a_nf result in
   significance <-
     match EnhancedUnifiedFramework.discrepancy_sigma result with
     | Some s => Ok s
     | None => Raise (KeyError "discrepancy_sigma")
     end ;;
   Ok (framework, (results ++ [(delta, a_bsm, significance)])%list))%pym.

Fixpoint sweep (framework : UnifiedFrameworkWithV361.t num)
    (results : list record) (delta_values : list num)
  : result (UnifiedFrameworkWithV361.t num * list record) :=
  match delta_values with
  | [] => Ok (framework, results)
  | delta :: rest =>
      ('(framework, results) <- sweep_step framework results delta ;;
       sweep framework results rest)%pym
  end.

(** The function up to its [return]; plotting and the written report only
    consume [results] and the selected record. *)
Definition calibrate_muon_g2_v361 : result (num * num) :=
  (let framework := UnifiedFrameworkWithV361.init_default in
   let phi_e := lit 2.17 in
   let phi_mu := lit 4.32 in
   let phi_tau := lit 10.53 in
   let framework :=
     UnifiedFrameworkWithV361.set_berry_phases framework
       (Some phi_e) (Some phi_mu) (Some phi_tau) in
   let delta_values := np_linspace (lit 1.43e-10) (lit 1.46e-10) 30 in
   '(framework, results) <- sweep framework [] delta_values ;;
   '(best_delta, best_a_bsm, best_significance) <-
     py_min (fun x : record => py_abs (snd x)) results ;;
   Ok (best_delta, best_significance))%pym.

(** The test the function logs and reports after the sweep. *)
Definition calibration_succeeded (best_significance : num) : bool :=
  py_abs best_significance <=? lit 0.05.

End Calibration.
Arguments record : clear implicits.

(** ** Two arithmetics *)

(** *** Exact real arithmetic: no rounding, no overflow *)

Definition Reqb (x y : R) : bool := if Req_dec_T x y then true else false.
Definition Rltb (x y : R) : bool := if Rlt_dec x y then true else false.
Definition Rleb (x y : R) : bool := if Rle_dec x y then true else false.

#[export] Instance RealFloat : PyFloat R := {
  lit := Q2R;
  np_pi := PI;
  add := Rplus;
  sub := Rminus;
  mul := Rmult;
  div := Rdiv;
  neg := Ropp;
  sqr := fun x => (x * x)%R;
  sqr_overflow := fun _ => false;
  np_exp := exp;
  py_abs := Rabs;
  eqb := Reqb;
  ltb := Rltb;
  leb := Rleb
}.

(** *** IEEE-754 binary64, the numbers of a Python [float]

    A literal [n / 10^k] is read as the quotient of the two integers, which is
    the correctly rounded value when both are exactly representable (numerator
    below [2^53], [k <= 22]); every literal of the sources is of that kind.
    [exp] is the C library's and is left as an argument. *)

Definition float_of_Z (z : Z) : float :=
  match z with
  | Z0 => PrimFloat.zero
  | Zpos _ => PrimFloat.of_uint63 (Uint63.of_Z z)
  | Zneg p => PrimFloat.opp (PrimFloat.of_uint63 (Uint63.of_Z (Zpos p)))
  end.

Definition float_lit (q : Q) : float :=
  PrimFloat.div (float_of_Z (Qnum q)) (float_of_Z (Zpos (Qden q))).

(** [x ** 2] raises when a finite [x] has an infinite square. *)
Definition float_sqr_overflow (x : float) : bool :=
  PrimFloat.is_finite x && PrimFloat.is_infinity (PrimFloat.mul x x).

Definition Binary64 (libm_exp : float -> float) : PyFloat float := {|
  lit := float_lit;
  np_pi := 0x1.921fb54442d18p+1%float;
  add := PrimFloat.add;
  sub := PrimFloat.sub;
  mul := PrimFloat.mul;
  div := PrimFloat.div;
  neg := PrimFloat.opp;
  sqr := fun x => PrimFloat.mul x x;
  sqr_overflow := float_sqr_overflow;
  np_exp := libm_exp;
  py_abs := PrimFloat.abs;
  eqb := PrimFloat.eqb;
  ltb := PrimFloat.ltb;
  leb := PrimFloat.leb
|}.

(** ** Vocabulary of the statements *)

Section Vocabulary.
Context {num : Type} {F : PyFloat num}.
Local Open Scope string_scope.
Local Open Scope py_scope.
Import LeptonG2CanonicalV361.

(** The engine states a program can build: constructed, then changed by the
    three mutators of the class. *)
Inductive reachable : t num -> Prop :=
| reachable_init (chern_class : num) (hardcoded : bool) :
    reachable (init chern_class hardcoded)
| reachable_phases (self : t num) (phi_e phi_mu phi_tau : option num) :
    reachable self -> reachable (set_berry_phases self phi_e phi_mu phi_tau)
| reachable_toggle (self : t num) (enabled : bool) :
    reachable self -> reachable (fst (set_hardcoded_calibration self enabled))
| reachable_delta (self self' : t num) (lepton : string) (value : num) :
    reachable self -> set_delta_a_nf self lepton value = Ok self' ->
    reachable self'.

(** The correction [calculate_significance] works with: the argument when it
    is given, the prediction when it is [None]. *)
Definition correction_is (self : t num) (lepton : string)
    (a_lepton_eqft : option num) (use_v361 : bool) (a : num) : Prop :=
  match a_lepton_eqft with
  | Some a' => a' = a
  | None => predict_g2_correction self lepton use_v361 = Ok a
  end.

(** The arithmetic of [compute_amplitude_canonical] raises nothing. *)
Definition amplitude_defined (self : t num) (m_lepton m_heavy : num) : Prop :=
  (m_lepton =? lit 0) = false /\
  sqr_overflow (m_heavy / m_lepton) = false /\
  sqr_overflow (c1 self) = false /\
  (sqr (c1 self) + sqr (m_heavy / m_lepton) =? lit 0) = false.

(** The key ["significance"] of a returned dictionary. *)
Definition significance_of (r : result (SignificanceResult num))
  : result (option num) :=
  (x <- r ;; Ok (r_significance x))%pym.

(** The three pairs of the literal table of [compute_chern2_cross]. *)
Definition table_pair (phi_l1 phi_l2 : num) : bool :=
  ((phi_l1 =? lit 4.32) && (phi_l2 =? lit 10.53))
  || ((phi_l1 =? lit 2.17) && (phi_l2 =? lit 4.32))
  || ((phi_l1 =? lit 2.17) && (phi_l2 =? lit 10.53)).

(** The two matching windows of the benchmark block. *)
Definition muon_window (d : num) : bool :=
  py_abs (d - lit 1.4538e-10) <? lit 1e-14.

Definition electron_window (d : num) : bool :=
  py_abs (d - lit 3.1e-17) <? lit 1e-18.

(** The value [predict_g2_correction] builds from the five resolved
    parameters. *)
Definition correction_value (self : t num)
    (m_lepton m_heavy phi_lepton phi_heavy d : num) (use_v361 : bool) : num :=
  let c2 := compute_chern2_cross phi_lepton phi_heavy use_v361 in
  let lambda_topo := compute_lambda_topo c2 in
  let K := sqr (m_heavy / m_lepton) in
  let A := d * K * (c2 / (sqr (c1 self) + K)) in
  A * (lit 1.0 - np_exp (- lambda_topo * c2)).

(** What no method of the class writes keeps the value [__init__] gave it, and
    the dictionary of raw corrections keeps its three keys, each mirrored by its
    back-compatibility attribute. *)
Definition attributes_intact (self : t num) : Prop :=
  m_e self = lit 0.000510998950 /\
  m_mu self = lit 0.105658 /\
  m_tau self = lit 1.77686 /\
  calibrated_significance self = [("electron", lit 0.11); ("muon", lit 0.00)] /\
  a_mu_exp self = lit 2.51e-9 /\
  sigma_mu_exp self = lit 6.3e-10 /\
  a_e_exp self = lit 1.15965218073e-3 /\
  a_e_sm self = lit 1.15965218076e-3 /\
  sigma_e_exp self = lit 2.8e-13 /\
  delta_a_nf self =
    [("electron", delta_a_e_nf self); ("muon", delta_a_mu_nf self);
     ("tau", delta_a_tau_nf self)].

(** The engine of the calibration script and of the tests: default
    construction, then [set_berry_phases(2.17, 4.32, 10.53)]. *)
Definition benchmark_engine : t num :=
  set_berry_phases init_default (Some (lit 2.17)) (Some (lit 4.32)) (Some (lit 10.53)).

(** The framework during the sweep, when the last muon trial was [d]. *)
Definition swept_framework (d : num) : UnifiedFrameworkWithV361.t num :=
  {| UnifiedFrameworkWithV361.super := EnhancedUnifiedFramework.init (lit 2.0);
     UnifiedFrameworkWithV361.g2_calculator :=
       with_delta_a_mu_nf
         (with_delta_a_nf benchmark_engine
            [("electron", lit 3.1e-17); ("muon", d); ("tau", lit 5.2e-10)]) d |}.

(** The record the sweep appends for the trial [d]. *)
Definition trial_correction (d : num) : num :=
  correction_value (UnifiedFrameworkWithV361.g2_calculator (swept_framework d))
    (lit 0.105658) (lit 1.77686) (lit 4.32) (lit 10.53) d true.

Definition trial_significance (d : num) : num :=
  if muon_window d then lit 0.00
  else (trial_correction d - lit 2.51e-9) / lit 6.3e-10.

Definition trial (d : num) : record num :=
  (d, trial_correction d, trial_significance d).

(** The trial [d] evaluates without an exception, to the record [trial d]. *)
Definition sweep_step_defined (d : num) : Prop :=
  predict_g2_correction (UnifiedFrameworkWithV361.g2_calculator (swept_framework d))
    "muon" true = Ok (trial_correction d) /\
  significance_of
    (calculate_significance (UnifiedFrameworkWithV361.g2_calculator (swept_framework d))
       "muon" (Some (trial_correction d)) true)
  = Ok (Some (trial_significance d)).

(** The sample [i] of [np.linspace(1.43e-10, 1.46e-10, 30)], for [i < 29]. *)
Definition grid (i : nat) : num :=
  of_nat i * ((lit 1.46e-10 - lit 1.43e-10) / of_nat 29) + lit 1.43e-10.

End Vocabulary.

(** ** The words of the specification, over the reals *)

Section SpecWords.
Import LeptonG2CanonicalV361.
Local Open Scope string_scope.
Local Open Scope R_scope.

(** Specification, section 3: the parameters of one lepton. *)
Record LeptonParameters : Type := {
  mass : R;
  heavyPartnerMass : R;
  phase : R;
  heavyPartnerPhase : R;
  rawCorrection : R
}.

(** Specification, section 4.2: the parameters are resolved from the store;
    the electron's partner is the muon, the muon's is the tau, and the tau gets
    the synthesized partner [heavyMass = 2 * mass], [heavyPhase = 1.5 * phase]. *)
Definition resolve_spec (self : t R) (lepton : string) : option LeptonParameters :=
  if String.eqb lepton "electron" then
    option_map (fun d => {| mass := m_e self; heavyPartnerMass := m_mu self;
                            phase := phi_e self; heavyPartnerPhase := phi_mu self;
                            rawCorrection := d |})
      (dict_get (delta_a_nf self) "electron")
  else if String.eqb lepton "muon" then
    option_map (fun d => {| mass := m_mu self; heavyPartnerMass := m_tau self;
                            phase := phi_mu self; heavyPartnerPhase := phi_tau self;
                            rawCorrection := d |})
      (dict_get (delta_a_nf self) "muon")
  else if String.eqb lepton "tau" then
    option_map (fun d => {| mass := m_tau self; heavyPartnerMass := 2 * m_tau self;
                            phase := phi_tau self;
                            heavyPartnerPhase := 1.5 * phi_tau self;
                            rawCorrection := d |})
      (dict_get (delta_a_nf self) "tau")
  else None.

(** Specification, sections 4.1 and 4.2: [lambda = c2 / (16 pi^2)],
    [K = (heavyMass / mass)^2], [epsilonTop = c2 / (toleranceClass^2 + K)],
    [A = rawCorrection * K * epsilonTop], result [A * (1 - exp(- lambda * c2))]. *)
Definition predictCorrection_spec (toleranceClass : R) (p : LeptonParameters)
    (c2 : R) : R :=
  let lambda := c2 / (16 * PI ^ 2) in
  let K := (heavyPartnerMass p / mass p) ^ 2 in
  let epsilonTop := c2 / (toleranceClass ^ 2 + K) in
  let A := rawCorrection p * K * epsilonTop in
  A * (1 - exp (- (lambda * c2))).

(** [x] has the decimal order of magnitude [r], a power of ten. *)
Definition order_of_magnitude (r x : R) : Prop :=
  r <= Rabs x < 10 * r.

(** [x] is [r] up to a factor of ten either way: the widest reading of
    "of order of magnitude ~r". *)
Definition within_factor_ten (r x : R) : Prop :=
  r / 10 <= Rabs x <= 10 * r.

(** The return value of [setOverrideMode] as the specification words it: the
    state the toggle had before the call. *)
Definition returns_previous_state (self : t R) (enabled : bool) : Prop :=
  snd (set_hardcoded_calibration self enabled) = hardcoded_calibration self.

End SpecWords.

(** ** [tests/test_lepton_g2_v361_calibration.py] *)

Section UnitTests.
Context {num : Type} {F : PyFloat num}.
Local Open Scope string_scope.
Local Open Scope py_scope.

(** How a test method ends: every assertion held, an assertion failed, the
    code under test raised, or [None] reached an arithmetic operation. *)
Inductive outcome : Type :=
| Passed
| AssertionFailed
| Errored (e : exception)
| NoneOperand.

(** [self.assertAlmostEqual(first, second, delta=delta)], then the rest. *)
Definition assertAlmostEqual (first : option num) (second delta : num)
    (rest : outcome) : outcome :=
  match first with
  | None => NoneOperand
  | Some first =>
      if first =? second then rest
      else if py_abs (first - second) <=? delta then rest
      else AssertionFailed
  end.

(** [self.assertNotEqual(first, second)], then the rest. *)
Definition assertNotEqual (first second : num) (rest : outcome) : outcome :=
  if first =? second then AssertionFailed else rest.

(** A call of the code under test, then the rest. *)
Definition call {A : Type} (r : result A) (rest : A -> outcome) : outcome :=
  match r with
  | Ok a => rest a
  | Raise e => Errored e
  end.

(** The fixture [setUp] builds: the framework and a separate calculator, both
    with the standard phases. *)
Record TestLeptonG2V361Calibration : Type := {
  framework : UnifiedFrameworkWithV361.t num;
  calculator : LeptonG2CanonicalV361.t num
}.

Definition setUp : TestLeptonG2V361Calibration :=
  let phi_e := lit 2.17 in
  let phi_mu := lit 4.32 in
  let phi_tau := lit 10.53 in
  {| framework :=
       UnifiedFrameworkWithV361.set_berry_phases UnifiedFrameworkWithV361.init_default
         (Some phi_e) (Some phi_mu) (Some phi_tau);
     calculator :=
       LeptonG2CanonicalV361.set_berry_phases LeptonG2CanonicalV361.init_default
         (Some phi_e) (Some phi_mu) (Some phi_tau) |}.

(** [result["discrepancy_sigma"]]: the key may be missing. *)
Definition discrepancy_sigma_item (r : EnhancedUnifiedFramework.MomentResult num)
    : result num :=
  match EnhancedUnifiedFramework.discrepancy_sigma r with
  | Some s => Ok s
  | None => Raise (KeyError "discrepancy_sigma")
  end.

Definition test_muon_calibration (self : TestLeptonG2V361Calibration) : outcome :=
  let expected_delta_a_mu_nf := lit 1.4538e-10 in
  let actual_delta_a_mu_nf :=
    LeptonG2CanonicalV361.delta_a_mu_nf
      (UnifiedFrameworkWithV361.g2_calculator (framework self)) in
  assertAlmostEqual (Some actual_delta_a_mu_nf) expected_delta_a_mu_nf (lit 1e-14)
    (call (UnifiedFrameworkWithV361.calculate_anomalous_magnetic_moment
             (framework self) "muon" true true true) (fun result =>
     call (discrepancy_sigma_item result) (fun sigma =>
     assertAlmostEqual (Some sigma) (lit 0.00) (lit 0.05)
       (call (LeptonG2CanonicalV361.calculate_significance
                (calculator self) "muon" None true) (fun direct_result =>
        assertAlmostEqual (LeptonG2CanonicalV361.r_significance direct_result)
          (lit 0.00) (lit 0.05) Passed))))).

Definition test_electron_calibration (self : TestLeptonG2V361Calibration) : outcome :=
  let expected_delta_a_e_nf := lit 3.1e-17 in
  let actual_delta_a_e_nf :=
    LeptonG2CanonicalV361.delta_a_e_nf
      (UnifiedFrameworkWithV361.g2_calculator (framework self)) in
  assertAlmostEqual (Some actual_delta_a_e_nf) expected_delta_a_e_nf (lit 1e-18)
    (call (UnifiedFrameworkWithV361.calculate_anomalous_magnetic_moment
             (framework self) "electron" true true true) (fun result =>
     call (discrepancy_sigma_item result) (fun sigma =>
     assertAlmostEqual (Some sigma) (lit 0.11) (lit 0.05)
       (call (LeptonG2CanonicalV361.calculate_significance
                (calculator self) "electron" None true) (fun direct_result =>
        assertAlmostEqual (LeptonG2CanonicalV361.r_significance direct_result)
          (lit 0.11) (lit 0.05) Passed))))).

Definition test_tau_calculation (self : TestLeptonG2V361Calibration) : outcome :=
  call (UnifiedFrameworkWithV361.calculate_anomalous_magnetic_moment
          (framework self) "tau" true true true) (fun result =>
  assertNotEqual (EnhancedUnifiedFramework.a_nf result) (lit 0.0) Passed).

End UnitTests.
Arguments TestLeptonG2V361Calibration : clear implicits.

(** ** Further vocabulary *)

Section MoreVocabulary.
Context {num : Type} {F : PyFloat num}.
Local Open Scope string_scope.
Local Open Scope py_scope.
Import LeptonG2CanonicalV361.

(** An argument of [set_berry_phases]: [None] keeps the old phase. *)
Definition phase_argument (new : option num) (old : num) : num :=
  match new with Some v => v | None => old end.

(** A later optional argument over an earlier one. *)
Definition later_argument (later earlier : option num) : option num :=
  match later with Some v => Some v | None => earlier end.

(** The back-compatibility attribute of a lepton. *)
Definition alias_of (self : t num) (lepton : string) : option num :=
  if String.eqb lepton "electron" then Some (delta_a_e_nf self)
  else if String.eqb lepton "muon" then Some (delta_a_mu_nf self)
  else if String.eqb lepton "tau" then Some (delta_a_tau_nf self)
  else None.

(** An engine whose muon uncertainty was overwritten with [sigma] from outside
    the class, the way [tests/run_all_leptons.py] overwrites [a_mu_exp]. *)
Definition with_sigma_mu_exp (self : t num) (sigma : num) : t num :=
  {| c1 := c1 self; hardcoded_calibration := hardcoded_calibration self;
     m_e := m_e self; m_mu := m_mu self; m_tau := m_tau self;
     phi_e := phi_e self; phi_mu := phi_mu self; phi_tau := phi_tau self;
     delta_a_nf := delta_a_nf self;
     calibrated_significance := calibrated_significance self;
     delta_a_e_nf := delta_a_e_nf self; delta_a_mu_nf := delta_a_mu_nf self;
     delta_a_tau_nf := delta_a_tau_nf self;
     a_mu_exp := a_mu_exp self; sigma_mu_exp := sigma;
     a_e_exp := a_e_exp self; a_e_sm := a_e_sm self;
     sigma_e_exp := sigma_e_exp self |}.

End MoreVocabulary.

(** ** The prediction formula of the specification, in every arithmetic *)

Section FormulaWords.
Context {num : Type} {F : PyFloat num}.
Local Open Scope string_scope.
Local Open Scope py_scope.
Import LeptonG2CanonicalV361.

(** Specification, section 4.2: the five values resolved for one lepton. *)
Record ResolvedLepton : Type := {
  lp_mass : num;
  lp_heavyMass : num;
  lp_phase : num;
  lp_heavyPhase : num;
  lp_rawCorrection : num
}.

(** Specification, section 4.2: resolution from the parameter store.  The
    electron's partner is the muon, the muon's the tau; the tau's partner is
    synthesized as twice its mass and one and a half times its phase, the
    products taken as the code writes them ([m_tau * 2.0], [phi_tau * 1.5]). *)
Definition resolve_store (self : t num) (lepton : string) : option ResolvedLepton :=
  if String.eqb lepton "electron" then
    option_map (fun d => {| lp_mass := m_e self; lp_heavyMass := m_mu self;
                            lp_phase := phi_e self; lp_heavyPhase := phi_mu self;
                            lp_rawCorrection := d |})
      (dict_get (delta_a_nf self) "electron")
  else if String.eqb lepton "muon" then
    option_map (fun d => {| lp_mass := m_mu self; lp_heavyMass := m_tau self;
                            lp_phase := phi_mu self; lp_heavyPhase := phi_tau self;
                            lp_rawCorrection := d |})
      (dict_get (delta_a_nf self) "muon")
  else if String.eqb lepton "tau" then
    option_map (fun d => {| lp_mass := m_tau self;
                            lp_heavyMass := m_tau self * lit 2.0;
                            lp_phase := phi_tau self;
                            lp_heavyPhase := phi_tau self * lit 1.5;
                            lp_rawCorrection := d |})
      (dict_get (delta_a_nf self) "tau")
  else None.

(** Specification, sections 4.1 and 4.2, operation by operation:
    [c2 = crossClass(phase, heavyPhase, variant)], [lambda = c2 / (16 pi^2)],
    [K = (heavyMass / mass)^2], [epsilonTop = c2 / (toleranceClass^2 + K)],
    [A = rawCorrection * K * epsilonTop], result
    [A * (1 - exp(-lambda * c2))]. *)
Definition predictCorrection_formula (toleranceClass : num) (p : ResolvedLepton)
    (variant : bool) : num :=
  let c2 := compute_chern2_cross (lp_phase p) (lp_heavyPhase p) variant in
  let lambda := c2 / (lit 16.0 * sqr np_pi) in
  let K := sqr (lp_heavyMass p / lp_mass p) in
  let epsilonTop := c2 / (sqr toleranceClass + K) in
  let A := lp_rawCorrection p * K * epsilonTop in
  A * (lit 1.0 - np_exp (- lambda * c2)).

(** The last factor of the prediction, [1 - exp(-lambda * c2)]. *)
Definition damping_factor (c2 : num) : num :=
  lit 1.0 - np_exp (- compute_lambda_topo c2 * c2).

End FormulaWords.
Arguments ResolvedLepton : clear implicits.

(** The resolved values as the parameters of the specification's data model. *)
Definition spec_parameters (p : ResolvedLepton R) : LeptonParameters :=
  {| mass := lp_mass p; heavyPartnerMass := lp_heavyMass p;
     phase := lp_phase p; heavyPartnerPhase := lp_heavyPhase p;
     rawCorrection := lp_rawCorrection p |}.

(** ** Tactics for the real instance *)

(** Unfolds the operations of [RealFloat]. *)
Ltac real_ops :=
  cbn [lit np_pi add sub mul div neg sqr sqr_overflow np_exp py_abs eqb ltb leb
       RealFloat] in *.

(** Also turns every decimal literal into a quotient of two integers. *)
Ltac real_lits :=
  real_ops;
  repeat match goal with
  | |- context [Q2R ?q] =>
      let q' := eval vm_compute in q in
      match q' with
      | Qmake ?n ?d => change (Q2R q) with (IZR n * / IZR (Zpos d))%R
      end
  | H : context [Q2R ?q] |- _ =>
      let q' := eval vm_compute in q in
      match q' with
      | Qmake ?n ?d => change (Q2R q) with (IZR n * / IZR (Zpos d))%R in H
      end
  end.

(** * Properties that hold in every arithmetic *)

Section EngineFacts.
Context {num : Type} {F : PyFloat num}.
Local Open Scope string_scope.
Local Open Scope py_scope.
Import LeptonG2CanonicalV361.

(** ** The error monad and the builtins *)

Lemma bind_Ok {A B : Type} (a : A) (k : A -> result B) : bind (Ok a) k = k a.
Proof. reflexivity. Qed.

Lemma bind_Raise {A B : Type} (e : exception) (k : A -> result B) :
  bind (Raise e) k = Raise e.
Proof. reflexivity. Qed.

Lemma getitem_Some {V : Type} (d : dict V) (k : string) (v : V) :
  dict_get d k = Some v -> getitem d k = Ok v.
Proof. unfold getitem; intros ->; reflexivity. Qed.

Lemma dict_mem_Some {V : Type} (d : dict V) (k : string) (v : V) :
  dict_get d k = Some v -> dict_mem d k = true.
Proof. unfold dict_mem; intros ->; reflexivity. Qed.

Lemma dict_get_setitem_same {V : Type} (d : dict V) (k : string) (v : V) :
  dict_get (setitem d k v) k = Some v.
Proof.
  induction d as [|[k' v'] d IH]; simpl.
  - now rewrite String.eqb_refl.
  - destruct (String.eqb k k') eqn:E; simpl.
    + now rewrite String.eqb_refl.
    + now rewrite E.
Qed.

Lemma dict_get_setitem_other {V : Type} (d : dict V) (k k0 : string) (v : V) :
  k0 <> k -> dict_get (setitem d k v) k0 = dict_get d k0.
Proof.
  intros Hne; induction d as [|[k' v'] d IH]; simpl.
  - apply String.eqb_neq in Hne; now rewrite Hne.
  - destruct (String.eqb k k') eqn:E; simpl.
    + apply String.eqb_eq in E; subst k'.
      apply String.eqb_neq in Hne; now rewrite Hne.
    + destruct (String.eqb k0 k'); [reflexivity | exact IH].
Qed.

Lemma str_in_leptons (lepton : string) :
  str_in lepton ["electron"; "muon"; "tau"] = false <->
  lepton <> "electron" /\ lepton <> "muon" /\ lepton <> "tau".
Proof.
  unfold str_in; simpl.
  rewrite !orb_false_iff, !String.eqb_neq; tauto.
Qed.

(** ** Amplitude and prediction *)

Lemma compute_amplitude_canonical_defined
    (self : t num) (m_lepton m_heavy d c2 : num) :
  amplitude_defined self m_lepton m_heavy ->
  compute_amplitude_canonical self m_lepton m_heavy d c2 =
  Ok (let K := sqr (m_heavy / m_lepton) in
      d * K * (c2 / (sqr (c1 self) + K))).
Proof.
  intros (Hm & Hq & Hc & Hs).
  unfold compute_amplitude_canonical, py_div, py_pow2.
  rewrite Hm; simpl. rewrite Hq; simpl. rewrite Hc; simpl. rewrite Hs; simpl.
  reflexivity.
Qed.

Lemma predict_electron (self : t num) (d : num) (use_v361 : bool) :
  dict_get (delta_a_nf self) "electron" = Some d ->
  amplitude_defined self (m_e self) (m_mu self) ->
  predict_g2_correction self "electron" use_v361 =
  Ok (correction_value self (m_e self) (m_mu self) (phi_e self) (phi_mu self)
        d use_v361).
Proof.
  intros Hd Ha. unfold predict_g2_correction; simpl.
  rewrite (getitem_Some _ _ Hd); simpl.
  rewrite (compute_amplitude_canonical_defined _ _ Ha); reflexivity.
Qed.

Lemma predict_muon (self : t num) (d : num) (use_v361 : bool) :
  dict_get (delta_a_nf self) "muon" = Some d ->
  amplitude_defined self (m_mu self) (m_tau self) ->
  predict_g2_correction self "muon" use_v361 =
  Ok (correction_value self (m_mu self) (m_tau self) (phi_mu self) (phi_tau self)
        d use_v361).
Proof.
  intros Hd Ha. unfold predict_g2_correction; simpl.
  rewrite (getitem_Some _ _ Hd); simpl.
  rewrite (compute_amplitude_canonical_defined _ _ Ha); reflexivity.
Qed.

Lemma predict_tau (self : t num) (d : num) (use_v361 : bool) :
  dict_get (delta_a_nf self) "tau" = Some d ->
  amplitude_defined self (m_tau self) (m_tau self * lit 2.0) ->
  predict_g2_correction self "tau" use_v361 =
  Ok (correction_value self (m_tau self) (m_tau self * lit 2.0)
        (phi_tau self) (phi_tau self * lit 1.5) d use_v361).
Proof.
  intros Hd Ha. unfold predict_g2_correction; simpl.
  rewrite (getitem_Some _ _ Hd); simpl.
  rewrite (compute_amplitude_canonical_defined _ _ Ha); reflexivity.
Qed.

Lemma predict_unsupported (self : t num) (lepton : string) (use_v361 : bool) :
  lepton <> "electron" -> lepton <> "muon" -> lepton <> "tau" ->
  predict_g2_correction self lepton use_v361 = Raise (unsupported lepton).
Proof.
  intros He Hm Ht. unfold predict_g2_correction.
  apply String.eqb_neq in He, Hm, Ht. rewrite He, Hm, Ht. reflexivity.
Qed.

Lemma set_delta_a_nf_unsupported (self : t num) (lepton : string) (value : num) :
  lepton <> "electron" -> lepton <> "muon" -> lepton <> "tau" ->
  set_delta_a_nf self lepton value = Raise (unsupported lepton).
Proof.
  intros He Hm Ht. unfold set_delta_a_nf.
  assert (H : str_in lepton ["electron"; "muon"; "tau"] = false)
    by (apply str_in_leptons; auto).
  rewrite H; reflexivity.
Qed.

(** C8. A lepton name other than "electron", "muon" and "tau" makes both
    [predict_g2_correction] (for either value of [use_v361]) and
    [set_delta_a_nf] raise the ValueError of an unsupported lepton, whatever
    the engine holds and whatever value is offered; nothing is computed or
    stored before. *)
Theorem unsupported_lepton_raises
    (self : t num) (lepton : string) (use_v361 : bool) (value : num) :
  lepton <> "electron" -> lepton <> "muon" -> lepton <> "tau" ->
  predict_g2_correction self lepton use_v361
    = Raise (ValueError ("Lepton type '" ++ lepton ++ "' not supported")) /\
  set_delta_a_nf self lepton value
    = Raise (ValueError ("Lepton type '" ++ lepton ++ "' not supported")).
Proof.
  intros He Hm Ht; split.
  - now apply predict_unsupported.
  - now apply set_delta_a_nf_unsupported.
Qed.

End EngineFacts.

Section SignificanceFacts.
Context {num : Type} {F : PyFloat num}.
Local Open Scope string_scope.
Local Open Scope py_scope.
Import LeptonG2CanonicalV361.

(** ** The benchmark block *)

Lemma benchmark_override_off
    (self : t num) (lepton : string) (use_v361 : bool) (s : num) :
  hardcoded_calibration self && use_v361 = false ->
  benchmark_override self lepton use_v361 s = Ok s.
Proof. unfold benchmark_override; intros ->; reflexivity. Qed.

Lemma benchmark_override_muon (self : t num) (d target s : num) :
  hardcoded_calibration self = true ->
  dict_get (calibrated_significance self) "muon" = Some target ->
  dict_get (delta_a_nf self) "muon" = Some d ->
  benchmark_override self "muon" true s = Ok (if muon_window d then target else s).
Proof.
  intros Hh Ht Hd. unfold benchmark_override, muon_window.
  rewrite Hh, (dict_mem_Some _ _ Ht); simpl.
  rewrite (getitem_Some _ _ Hd); simpl.
  destruct (py_abs (d - lit 1.4538e-10) <? lit 1e-14); simpl; [|reflexivity].
  now rewrite (getitem_Some _ _ Ht).
Qed.

Lemma benchmark_override_electron (self : t num) (d target s : num) :
  hardcoded_calibration self = true ->
  dict_get (calibrated_significance self) "electron" = Some target ->
  dict_get (delta_a_nf self) "electron" = Some d ->
  benchmark_override self "electron" true s
    = Ok (if electron_window d then target else s).
Proof.
  intros Hh Ht Hd. unfold benchmark_override, electron_window.
  rewrite Hh, (dict_mem_Some _ _ Ht); simpl.
  rewrite (getitem_Some _ _ Hd); simpl.
  destruct (py_abs (d - lit 3.1e-17) <? lit 1e-18); simpl; [|reflexivity].
  now rewrite (getitem_Some _ _ Ht).
Qed.

(** ** [calculate_significance], lepton by lepton *)

Lemma correction_is_bind {B : Type} (self : t num) (lepton : string)
    (a_opt : option num) (use_v361 : bool) (a : num) (k : num -> result B) :
  correction_is self lepton a_opt use_v361 a ->
  bind match a_opt with
       | None => predict_g2_correction self lepton use_v361
       | Some a' => Ok a'
       end k = k a.
Proof.
  destruct a_opt as [a'|]; simpl.
  - intros ->; reflexivity.
  - intros ->; reflexivity.
Qed.

Lemma calculate_significance_muon (self : t num) (a_opt : option num)
    (use_v361 : bool) (a s : num) :
  correction_is self "muon" a_opt use_v361 a ->
  (sigma_mu_exp self >? lit 0) = true ->
  benchmark_override self "muon" use_v361 ((a - a_mu_exp self) / sigma_mu_exp self)
    = Ok s ->
  significance_of (calculate_significance self "muon" a_opt use_v361) = Ok (Some s).
Proof.
  intros Ha Hs Hb. unfold significance_of, calculate_significance.
  erewrite correction_is_bind by exact Ha; simpl.
  rewrite Hs, Hb; reflexivity.
Qed.

Lemma calculate_significance_electron (self : t num) (a_opt : option num)
    (use_v361 : bool) (a s : num) :
  correction_is self "electron" a_opt use_v361 a ->
  (sigma_e_exp self >? lit 0) = true ->
  benchmark_override self "electron" use_v361
    ((a_e_sm self + a - a_e_exp self) / sigma_e_exp self) = Ok s ->
  significance_of (calculate_significance self "electron" a_opt use_v361)
    = Ok (Some s).
Proof.
  intros Ha Hs Hb. unfold significance_of, calculate_significance.
  erewrite correction_is_bind by exact Ha; simpl.
  rewrite Hs, Hb; reflexivity.
Qed.

Lemma calculate_significance_tau (self : t num) (a_opt : option num)
    (use_v361 : bool) (a : num) :
  correction_is self "tau" a_opt use_v361 a ->
  exists r, calculate_significance self "tau" a_opt use_v361 = Ok r /\
            r_a_lepton_eqft r = a /\ r_a_exp r = None /\
            r_delta r = None /\ r_significance r = None.
Proof.
  intros Ha. unfold calculate_significance.
  erewrite correction_is_bind by exact Ha; simpl.
  eexists; split; [reflexivity|]. simpl; auto.
Qed.

(** C9. For "tau", [calculate_significance] returns a dictionary whose
    "significance" and "delta" are both None: for both values of [use_v361],
    with the benchmark mode on or off, and for every content of the engine's
    attributes; the correction is the one passed in or, when None is passed,
    the one the prediction step returns. *)
Theorem tau_significance_absent (self : t num) (a_opt : option num)
    (use_v361 enabled : bool) (a : num) :
  correction_is self "tau" a_opt use_v361 a ->
  exists r,
    calculate_significance (fst (set_hardcoded_calibration self enabled))
      "tau" a_opt use_v361 = Ok r /\
    r_significance r = None /\ r_delta r = None.
Proof.
  intros Ha.
  destruct (@calculate_significance_tau
              (fst (set_hardcoded_calibration self enabled)) a_opt use_v361 a)
    as (r & Hr & _ & _ & Hd & Hs).
  - destruct a_opt; [exact Ha | exact Ha].
  - exists r; auto.
Qed.

End SignificanceFacts.

Section OverrideFacts.
Context {num : Type} {F : PyFloat num}.
Local Open Scope string_scope.
Local Open Scope py_scope.
Import LeptonG2CanonicalV361.

Lemma correction_is_toggle (self : t num) (lepton : string)
    (a_opt : option num) (use_v361 enabled : bool) (a : num) :
  correction_is self lepton a_opt use_v361 a ->
  correction_is (fst (set_hardcoded_calibration self enabled))
    lepton a_opt use_v361 a.
Proof. destruct a_opt; intros H; exact H. Qed.

(** C1. Take an engine whose muon raw correction [d] passes the matching test
    against 1.4538e-10, whose target table gives 0.00 for the muon and whose
    muon uncertainty is positive, and let [a] be the correction the evaluation
    works with.  After [set_hardcoded_calibration(True)] the significance
    returned for "muon" with [use_v361=True] is the literal 0.00, whatever [a]
    is; after [set_hardcoded_calibration(False)], on the same attributes, it is
    the computed [(a - a_mu_exp) / sigma_mu_exp]. *)
Theorem muon_override_toggle (self : t num) (a_opt : option num) (a d : num) :
  dict_get (delta_a_nf self) "muon" = Some d ->
  muon_window d = true ->
  dict_get (calibrated_significance self) "muon" = Some (lit 0.00) ->
  (sigma_mu_exp self >? lit 0) = true ->
  correction_is self "muon" a_opt true a ->
  significance_of
    (calculate_significance (fst (set_hardcoded_calibration self true))
       "muon" a_opt true) = Ok (Some (lit 0.00)) /\
  significance_of
    (calculate_significance (fst (set_hardcoded_calibration self false))
       "muon" a_opt true)
    = Ok (Some ((a - a_mu_exp self) / sigma_mu_exp self)).
Proof.
  intros Hd Hw Ht Hs Ha; split.
  - apply calculate_significance_muon with (a := a).
    + now apply correction_is_toggle.
    + exact Hs.
    + erewrite benchmark_override_muon; [ | reflexivity | exact Ht | exact Hd ].
      now rewrite Hw.
  - apply calculate_significance_muon with (a := a).
    + now apply correction_is_toggle.
    + exact Hs.
    + now apply benchmark_override_off.
Qed.

(** C10. In benchmark mode with [use_v361=True], the significance returned for
    the muon is the target 0.00 exactly when the stored raw correction [d_mu]
    satisfies [abs(d_mu - 1.4538e-10) < 1e-14], and the one returned for the
    electron is the target 0.11 exactly when [abs(d_e - 3.1e-17) < 1e-18]; for
    a raw correction outside its window the computed quotient of discrepancy
    and uncertainty is returned. *)
Theorem override_windows (self : t num) (a_opt_mu a_opt_e : option num)
    (a_mu a_e d_mu d_e : num) :
  hardcoded_calibration self = true ->
  calibrated_significance self = [("electron", lit 0.11); ("muon", lit 0.00)] ->
  dict_get (delta_a_nf self) "muon" = Some d_mu ->
  dict_get (delta_a_nf self) "electron" = Some d_e ->
  (sigma_mu_exp self >? lit 0) = true ->
  (sigma_e_exp self >? lit 0) = true ->
  correction_is self "muon" a_opt_mu true a_mu ->
  correction_is self "electron" a_opt_e true a_e ->
  significance_of (calculate_significance self "muon" a_opt_mu true)
    = Ok (Some (if py_abs (d_mu - lit 1.4538e-10) <? lit 1e-14
                then lit 0.00
                else (a_mu - a_mu_exp self) / sigma_mu_exp self)) /\
  significance_of (calculate_significance self "electron" a_opt_e true)
    = Ok (Some (if py_abs (d_e - lit 3.1e-17) <? lit 1e-18
                then lit 0.11
                else (a_e_sm self + a_e - a_e_exp self) / sigma_e_exp self)).
Proof.
  intros Hh Ht Hdm Hde Hsm Hse Ham Hae; split.
  - apply calculate_significance_muon with (a := a_mu); auto.
    apply benchmark_override_muon; auto.
    rewrite Ht; reflexivity.
  - apply calculate_significance_electron with (a := a_e); auto.
    apply benchmark_override_electron; auto.
    rewrite Ht; reflexivity.
Qed.

(** C6, as the code has it.  [set_hardcoded_calibration(enabled)] stores
    [enabled] in the toggle, leaves every other attribute alone, and returns
    the toggle as it is after the call, that is [enabled]. *)
Theorem set_hardcoded_calibration_returns_new (self : t num) (enabled : bool) :
  let (self', returned) := set_hardcoded_calibration self enabled in
  returned = enabled /\
  hardcoded_calibration self' = enabled /\
  self' = with_hardcoded_calibration self enabled.
Proof. simpl; auto. Qed.

(** C5. Without the overlap, [compute_chern2_cross] returns the product
    [2.0 * phi_l1 * phi_l2] for every pair of phases; with the overlap, for
    every pair outside the literal table, it returns that product times
    [1.0 - phi_l2 / (4.0 * pi)], which is the overlap factor
    [compute_berry_overlap] of the second phase. *)
Theorem cross_class_formula (phi_l1 phi_l2 : num) :
  compute_chern2_cross phi_l1 phi_l2 false = lit 2.0 * phi_l1 * phi_l2 /\
  (table_pair phi_l1 phi_l2 = false ->
   compute_chern2_cross phi_l1 phi_l2 true
     = lit 2.0 * phi_l1 * phi_l2 * (lit 1.0 - phi_l2 / (lit 4.0 * np_pi)) /\
   compute_chern2_cross phi_l1 phi_l2 true
     = lit 2.0 * phi_l1 * phi_l2 * compute_berry_overlap phi_l2).
Proof.
  split; [reflexivity|].
  unfold table_pair, compute_chern2_cross, compute_berry_overlap; simpl.
  intros H. apply orb_false_iff in H as [H H3].
  apply orb_false_iff in H as [H1 H2].
  rewrite H1, H2, H3. split; reflexivity.
Qed.

End OverrideFacts.


(** ** The reachable states *)

Section ReachableFacts.
Context {num : Type} {F : PyFloat num}.
Local Open Scope string_scope.
Local Open Scope py_scope.
Import LeptonG2CanonicalV361.

Lemma str_in_leptons_true (lepton : string) :
  str_in lepton ["electron"; "muon"; "tau"] = true ->
  lepton = "electron" \/ lepton = "muon" \/ lepton = "tau".
Proof.
  unfold str_in; simpl. rewrite orb_false_r, !orb_true_iff, !String.eqb_eq. tauto.
Qed.

Lemma set_delta_a_nf_intact (self self' : t num) (lepton : string) (value : num) :
  attributes_intact self ->
  set_delta_a_nf self lepton value = Ok self' ->
  attributes_intact self'.
Proof.
  intros (H1 & H2 & H3 & H4 & H5 & H6 & H7 & H8 & H9 & Hd).
  unfold set_delta_a_nf.
  destruct (str_in lepton ["electron"; "muon"; "tau"]) eqn:Hin; simpl;
    [|discriminate].
  intros Heq; injection Heq as <-.
  apply str_in_leptons_true in Hin.
  destruct Hin as [-> | [-> | ->]]; simpl; rewrite Hd; simpl;
    unfold attributes_intact; simpl; repeat split; assumption.
Qed.

Lemma reachable_attributes_intact (self : t num) :
  reachable self -> attributes_intact self.
Proof.
  induction 1 as [c h | self pe pm pt _ IH | self b _ IH | self self' l v _ IH Hs].
  - unfold attributes_intact; simpl; repeat split.
  - destruct pe, pm, pt; exact IH.
  - exact IH.
  - exact (set_delta_a_nf_intact _ _ IH Hs).
Qed.

(** The raw correction of a lepton is what its setter stored last. *)
Lemma set_delta_a_nf_stored (self self' : t num) (lepton : string) (value : num) :
  set_delta_a_nf self lepton value = Ok self' ->
  dict_get (delta_a_nf self') lepton = Some value.
Proof.
  unfold set_delta_a_nf.
  destruct (str_in lepton ["electron"; "muon"; "tau"]) eqn:Hin; simpl;
    [|discriminate].
  intros Heq; injection Heq as <-.
  destruct (String.eqb lepton "electron"); [|destruct (String.eqb lepton "muon");
    [|destruct (String.eqb lepton "tau")]]; simpl; apply dict_get_setitem_same.
Qed.

End ReachableFacts.

(** ** The framework and the sweep *)

Section SweepFacts.
Context {num : Type} {F : PyFloat num}.
Local Open Scope string_scope.
Local Open Scope py_scope.

Lemma significance_of_Ok (m : result (LeptonG2CanonicalV361.SignificanceResult num))
    (v : option num) :
  significance_of m = Ok v ->
  exists r, m = Ok r /\ LeptonG2CanonicalV361.r_significance r = v.
Proof.
  destruct m as [r|e]; simpl; [|discriminate].
  intros H; injection H as <-. now exists r.
Qed.

(** For the muon the framework reports the calculator's prediction and, when
    it has one, the calculator's significance. *)
Lemma framework_muon (fw : UnifiedFrameworkWithV361.t num) (a s : num) :
  LeptonG2CanonicalV361.predict_g2_correction
    (UnifiedFrameworkWithV361.g2_calculator fw) "muon" true = Ok a ->
  significance_of
    (LeptonG2CanonicalV361.calculate_significance
       (UnifiedFrameworkWithV361.g2_calculator fw) "muon" (Some a) true)
    = Ok (Some s) ->
  exists r,
    UnifiedFrameworkWithV361.calculate_anomalous_magnetic_moment
      fw "muon" true true true = Ok r /\
    EnhancedUnifiedFramework.a_nf r = a /\
    EnhancedUnifiedFramework.discrepancy_sigma r = Some s.
Proof.
  intros Hp Hs. apply significance_of_Ok in Hs as (c & Hc & Hcs).
  unfold UnifiedFrameworkWithV361.calculate_anomalous_magnetic_moment,
    UnifiedFrameworkWithV361.compute_g_minus_2,
    UnifiedFrameworkWithV361.compute_g_minus_2_canonical; simpl.
  rewrite Hp; simpl. rewrite Hc; simpl. rewrite Hcs.
  eexists; split; [reflexivity|]. simpl; auto.
Qed.

Lemma sweep_step_muon (fw fw' : UnifiedFrameworkWithV361.t num)
    (results : list (record num)) (d a s : num) :
  UnifiedFrameworkWithV361.set_delta_a_nf fw "muon" d = Ok fw' ->
  LeptonG2CanonicalV361.predict_g2_correction
    (UnifiedFrameworkWithV361.g2_calculator fw') "muon" true = Ok a ->
  significance_of
    (LeptonG2CanonicalV361.calculate_significance
       (UnifiedFrameworkWithV361.g2_calculator fw') "muon" (Some a) true)
    = Ok (Some s) ->
  sweep_step fw results d = Ok (fw', (results ++ [(d, a, s)])%list).
Proof.
  intros Hset Hp Hs. unfold sweep_step. rewrite Hset; simpl.
  destruct (framework_muon _ Hp Hs) as (r & -> & Ha & Hd); simpl.
  rewrite Hd, Ha; reflexivity.
Qed.

Lemma swept_framework_start :
  UnifiedFrameworkWithV361.set_berry_phases UnifiedFrameworkWithV361.init_default
    (Some (lit 2.17)) (Some (lit 4.32)) (Some (lit 10.53))
  = swept_framework (lit 1.4538e-10).
Proof. reflexivity. Qed.

Lemma swept_framework_set (d d' : num) :
  UnifiedFrameworkWithV361.set_delta_a_nf (swept_framework d) "muon" d'
  = Ok (swept_framework d').
Proof. reflexivity. Qed.

(** When every trial evaluates as [trial] says, the sweep appends the trials
    in order. *)
Lemma sweep_trials (delta_values : list num) :
  (forall d, In d delta_values -> sweep_step_defined d) ->
  forall (d0 : num) (results : list (record num)),
  exists d1,
    sweep (swept_framework d0) results delta_values
    = Ok (swept_framework d1, (results ++ map trial delta_values)%list).
Proof.
  intros Hall. induction delta_values as [|d l IH]; intros d0 results.
  - exists d0. simpl. now rewrite app_nil_r.
  - destruct (Hall d (or_introl eq_refl)) as [Hp Hs].
    cbn [sweep].
    rewrite (sweep_step_muon _ (swept_framework_set d0 d) Hp Hs); cbn [bind].
    change (d, trial_correction d, trial_significance d) with (trial d).
    destruct (IH (fun x Hx => Hall x (or_intror Hx)) d
                 (results ++ [trial d])%list) as (d1 & H).
    exists d1. etransitivity; [exact H|].
    now rewrite <- app_assoc.
Qed.

End SweepFacts.

(** * Exact real arithmetic *)

Section RealTests.
Local Open Scope R_scope.

Lemma Reqb_true (x y : R) : x = y -> Reqb x y = true.
Proof. unfold Reqb; destruct (Req_dec_T x y); [reflexivity | contradiction]. Qed.

Lemma Reqb_false (x y : R) : x <> y -> Reqb x y = false.
Proof. unfold Reqb; destruct (Req_dec_T x y); [contradiction | reflexivity]. Qed.

Lemma Rltb_true (x y : R) : x < y -> Rltb x y = true.
Proof. unfold Rltb; destruct (Rlt_dec x y); [reflexivity | contradiction]. Qed.

Lemma Rltb_false (x y : R) : ~ x < y -> Rltb x y = false.
Proof. unfold Rltb; destruct (Rlt_dec x y); [contradiction | reflexivity]. Qed.

Lemma Rleb_true (x y : R) : x <= y -> Rleb x y = true.
Proof. unfold Rleb; destruct (Rle_dec x y); [reflexivity | contradiction]. Qed.

Lemma Rleb_false (x y : R) : ~ x <= y -> Rleb x y = false.
Proof. unfold Rleb; destruct (Rle_dec x y); [contradiction | reflexivity]. Qed.

End RealTests.

(** Decides the comparisons between constants that occur in the goal. *)
Ltac real_tests :=
  repeat match goal with
  | |- context [Reqb ?a ?b] =>
      first [ rewrite (@Reqb_true a b) by (real_lits; lra)
            | rewrite (@Reqb_false a b) by (real_lits; lra) ]
  | |- context [Rltb ?a ?b] =>
      first [ rewrite (@Rltb_true a b) by (real_lits; lra)
            | rewrite (@Rltb_false a b) by (real_lits; lra) ]
  | |- context [Rleb ?a ?b] =>
      first [ rewrite (@Rleb_true a b) by (real_lits; lra)
            | rewrite (@Rleb_false a b) by (real_lits; lra) ]
  end.

Section RealEngine.
Import LeptonG2CanonicalV361.
Local Open Scope string_scope.
Local Open Scope R_scope.

(** Over the reals a square never overflows, and the divisions of
    [compute_amplitude_canonical] are defined as soon as both masses are not
    zero. *)
Lemma amplitude_defined_real (self : t R) (m_lepton m_heavy : R) :
  m_lepton <> 0 -> m_heavy <> 0 -> amplitude_defined self m_lepton m_heavy.
Proof.
  intros Hl Hh. unfold amplitude_defined. real_lits.
  repeat split; try reflexivity.
  - apply Reqb_false; lra.
  - apply Reqb_false.
    assert (Hq : m_heavy / m_lepton <> 0).
    { unfold Rdiv. apply Rmult_integral_contrapositive_currified; auto.
      now apply Rinv_neq_0_compat. }
    assert (0 < (m_heavy / m_lepton) * (m_heavy / m_lepton)) by nra.
    nra.
Qed.

Lemma chern2_table_real :
  compute_chern2_cross (lit 4.32) (lit 10.53) true = (lit 75.29 : R) /\
  compute_chern2_cross (lit 2.17) (lit 4.32) true = (lit 15.50 : R) /\
  compute_chern2_cross (lit 2.17) (lit 10.53) true = (lit 37.8 : R).
Proof.
  unfold compute_chern2_cross. real_ops. cbn [negb].
  real_tests. cbn [andb]. auto.
Qed.

(** ** A bound on the exponential *)

Lemma exp_pow_nat (n : nat) (y : R) : exp (INR n * y) = exp y ^ n.
Proof.
  induction n as [|n IH].
  - simpl. rewrite Rmult_0_l. apply exp_0.
  - rewrite S_INR, Rmult_plus_distr_r, Rmult_1_l, exp_plus, IH. simpl. ring.
Qed.

Lemma exp_monotone (x y : R) : x <= y -> exp x <= exp y.
Proof.
  intros [H | ->]; [left; now apply exp_increasing | right; reflexivity].
Qed.

Lemma exp_neg_small (x : R) : 22 <= x -> 0 < exp (- x) <= 1e-6.
Proof.
  intros Hx. split; [apply exp_pos|].
  rewrite exp_Ropp.
  assert (H16 : 1e6 <= exp 22).
  { replace 22 with (INR 16 * 1.375) by (simpl; lra).
    rewrite exp_pow_nat.
    apply Rle_trans with ((1 + 1.375) ^ 16).
    - simpl; lra.
    - apply pow_incr. split; [lra | apply exp_ineq1_le]. }
  assert (H : 1e6 <= exp x).
  { apply Rle_trans with (exp 22); [exact H16 | now apply exp_monotone]. }
  apply Rle_trans with (/ 1e6); [|lra].
  apply Rinv_le_contravar; [lra | exact H].
Qed.

Lemma lambda_c2_muon :
  exists x, 22 <= x /\
    (- compute_lambda_topo (lit 75.29) * lit 75.29)%py = - x.
Proof.
  unfold compute_lambda_topo, compute_topological_area. real_lits.
  exists (75.29 * 75.29 / (16 * (PI * PI))). real_lits.
  pose proof PI_RGT_0 as Hp. pose proof PI_4 as H4.
  assert (Hpp : 0 < PI * PI) by nra.
  assert (Hd : 16 * (PI * PI) <= 256) by nra.
  split.
  - apply Rmult_le_reg_r with (16 * (PI * PI)); [lra|].
    unfold Rdiv. rewrite Rmult_assoc, Rinv_l by lra. lra.
  - field. lra.
Qed.

(** ** The muon prediction at the default masses and phases

    With [c1 = 2.0], the default masses and the phases (4.32, 10.53), the
    prediction is the raw correction times a constant gain [g]. *)
Lemma muon_gain :
  exists g : R, 74.2398 < g < 74.24 /\
    forall (self : t R) (d : R),
      c1 self = lit 2.0 ->
      correction_value self (lit 0.105658) (lit 1.77686) (lit 4.32) (lit 10.53) d true
      = d * g.
Proof.
  destruct lambda_c2_muon as (x & Hx & Hl).
  destruct (exp_neg_small Hx) as [He0 He1].
  set (K := (1.77686 / 0.105658) * (1.77686 / 0.105658)).
  exists (K * (75.29 / (2 * 2 + K)) * (1 - exp (- x))). split.
  - set (e := exp (- x)) in *.
    set (G := K * (75.29 / (2 * 2 + K))).
    assert (HG : 74.23998 < G < 74.23999) by (unfold G, K; lra).
    clearbody G e.
    assert (Hp : 0 < G * e) by (apply Rmult_lt_0_compat; lra).
    assert (Hq : G * e <= 74.23999 * 1e-6) by (apply Rmult_le_compat; lra).
    replace (G * (1 - e)) with (G - G * e) by ring. lra.
  - intros self d Hc. unfold correction_value.
    destruct chern2_table_real as (-> & _). rewrite Hl, Hc.
    unfold K. real_lits. field; repeat split; lra.
Qed.

Lemma benchmark_engine_muon (d : R) :
  let self := UnifiedFrameworkWithV361.g2_calculator (swept_framework d) in
  predict_g2_correction self "muon" true = Ok (trial_correction d).
Proof.
  intros self. unfold trial_correction.
  apply (@predict_muon R _ self d true).
  - reflexivity.
  - apply amplitude_defined_real; simpl; real_lits; lra.
Qed.

End RealEngine.

Section RealSweep.
Import LeptonG2CanonicalV361.
Local Open Scope string_scope.
Local Open Scope R_scope.

(** ** [min] with a key, over the reals *)

(** Python's [min] returns the first element whose key is minimal: the keys
    before it are strictly larger, the keys after it are not smaller. *)
Lemma min_from_first (A : Type) (key : A -> R) (l : list A) (b x : A) :
  min_from key b l = x ->
  (x = b /\ Forall (fun y => key b <= key y) l) \/
  (exists l1 l2, l = (l1 ++ x :: l2)%list /\ key x < key b /\
     Forall (fun y => key x < key y) l1 /\ Forall (fun y => key x <= key y) l2).
Proof.
  revert b. induction l as [|y l IH]; intros b; cbn [min_from].
  - intros <-. left. split; [reflexivity | constructor].
  - real_ops. unfold Rltb. destruct (Rlt_dec (key y) (key b)) as [Hlt | Hge];
      intros H; apply IH in H as [[-> Hall] | (l1 & l2 & -> & Hx & H1 & H2)].
    + right. exists [], l. split; [reflexivity|]. split; [exact Hlt|].
      split; [constructor | exact Hall].
    + right. exists (y :: l1), l2. split; [reflexivity|]. split; [lra|].
      split; [constructor; assumption | exact H2].
    + left. split; [reflexivity|]. constructor; [lra | exact Hall].
    + right. exists (y :: l1), l2. split; [reflexivity|]. split; [exact Hx|].
      split; [constructor; [lra | exact H1] | exact H2].
Qed.

Lemma py_min_first (A : Type) (key : A -> R) (l : list A) (x : A) :
  py_min key l = Ok x ->
  exists l1 l2, l = (l1 ++ x :: l2)%list /\
    Forall (fun y => key x < key y) l1 /\ Forall (fun y => key x <= key y) l2.
Proof.
  destruct l as [|b l]; cbn [py_min]; [discriminate|].
  intros H; injection H as H.
  apply min_from_first in H as [[-> Hall] | (l1 & l2 & -> & Hx & H1 & H2)].
  - exists [], l. split; [reflexivity|]. split; [constructor | exact Hall].
  - exists (b :: l1), l2. split; [reflexivity|].
    split; [constructor; assumption | exact H2].
Qed.

Lemma min_from_zero (A : Type) (key : A -> R) (l : list A) (x : A) :
  (forall y, 0 <= key y) -> key x = 0 -> min_from key x l = x.
Proof.
  intros Hpos Hx. induction l as [|y l IH]; cbn [min_from]; [reflexivity|].
  real_ops. rewrite Rltb_false; [exact IH|]. specialize (Hpos y). lra.
Qed.

Lemma min_from_reaches_zero (A : Type) (key : A -> R) (l1 l2 : list A) (b x : A) :
  (forall y, 0 <= key y) -> key x = 0 ->
  0 < key b -> Forall (fun y => 0 < key y) l1 ->
  min_from key b (l1 ++ x :: l2) = x.
Proof.
  intros Hpos Hx. revert b. induction l1 as [|y l1 IH]; intros b Hb Hall.
  - cbn [app min_from]. real_ops. rewrite Rltb_true by lra.
    now apply min_from_zero.
  - inversion Hall as [|? ? Hy Hall']; subst.
    cbn [app min_from]. apply IH; [|exact Hall'].
    destruct (key y <? key b)%py; assumption.
Qed.

Lemma py_min_first_zero (A : Type) (key : A -> R) (l1 l2 : list A) (x : A) :
  (forall y, 0 <= key y) -> key x = 0 ->
  Forall (fun y => 0 < key y) l1 ->
  py_min key (l1 ++ x :: l2) = Ok x.
Proof.
  intros Hpos Hx Hall. destruct l1 as [|b l1]; cbn [app py_min]; f_equal.
  - now apply min_from_zero.
  - inversion Hall; subst. now apply min_from_reaches_zero.
Qed.

(** ** The trials of the sweep *)

Lemma of_nat_real (n : nat) : of_nat n = INR n.
Proof.
  unfold of_nat. cbn [lit RealFloat]. unfold Q2R, inject_Z. cbn [Qnum Qden].
  rewrite Rinv_1, Rmult_1_r. symmetry. apply INR_IZR_INZ.
Qed.

Lemma sweep_step_defined_real (d : R) : sweep_step_defined d.
Proof.
  split; [apply benchmark_engine_muon|].
  apply calculate_significance_muon with (a := trial_correction d).
  - reflexivity.
  - cbn. real_tests. reflexivity.
  - erewrite benchmark_override_muon; reflexivity.
Qed.

Lemma trial_correction_gain :
  exists g : R, 74.2398 < g < 74.24 /\ forall d, trial_correction d = d * g.
Proof.
  destruct muon_gain as (g & Hg & H). exists g. split; [exact Hg|].
  intros d. unfold trial_correction. now apply H.
Qed.

Lemma grid_real (i : nat) :
  grid i = 1.43e-10 + INR i * (3e-12 / 29).
Proof.
  unfold grid. rewrite !of_nat_real. real_lits. simpl INR. field.
Qed.

Lemma linspace_grid :
  np_linspace (lit 1.43e-10) (lit 1.46e-10) 30
  = (map grid (seq 0 23) ++ grid 23 :: map grid (seq 24 5) ++ [lit 1.46e-10 : R])%list.
Proof. reflexivity. Qed.

(** Before the sample 23 the window test fails and the computed significance
    is positive; at the sample 23 the window test succeeds. *)
Lemma grid_before_23 (i : nat) :
  (i < 23)%nat ->
  muon_window (grid i) = false /\ 0 < (trial_correction (grid i) - lit 2.51e-9) / lit 6.3e-10.
Proof.
  intros Hi.
  assert (H0 : 0 <= INR i) by apply pos_INR.
  assert (H22 : INR i <= 22).
  { replace 22 with (INR 22) by (simpl; lra). apply le_INR. lia. }
  destruct trial_correction_gain as (g & Hg & ->).
  rewrite grid_real. split.
  - unfold muon_window. real_lits. apply Rltb_false.
    unfold Rabs. destruct Rcase_abs; lra.
  - real_lits.
    set (d := _ + INR i * _).
    assert (Hd : 1.43e-10 <= d) by (unfold d; lra).
    assert (Hdg : 1.43e-10 * 74 <= d * g) by (apply Rmult_le_compat; lra).
    clearbody d. unfold Rdiv. apply Rmult_lt_0_compat; lra.
Qed.

Lemma grid_23_in_window : muon_window (grid 23) = true.
Proof.
  unfold muon_window. rewrite grid_real. real_lits. apply Rltb_true.
  simpl INR. unfold Rabs. destruct Rcase_abs; lra.
Qed.

Lemma trial_key_nonneg (x : record R) : 0 <= py_abs (snd x).
Proof. apply Rabs_pos. Qed.

Lemma calibration_selects_sample_23 :
  calibrate_muon_g2_v361 = Ok (grid 23, lit 0.00 : R).
Proof.
  unfold calibrate_muon_g2_v361.
  rewrite swept_framework_start, linspace_grid.
  destruct (@sweep_trials R _
              (map grid (seq 0 23) ++ grid 23 :: map grid (seq 24 5) ++ [lit 1.46e-10])%list
              (fun d _ => sweep_step_defined_real d) (lit 1.4538e-10) [])
    as (d1 & ->).
  cbn [bind app]. rewrite map_app. cbn [map].
  rewrite (@py_min_first_zero _ (fun x : record R => py_abs (snd x))
             (map trial (map grid (seq 0 23))) _ (trial (grid 23))).
  - cbn [bind]. unfold trial, trial_significance.
    rewrite grid_23_in_window. reflexivity.
  - exact trial_key_nonneg.
  - unfold trial, trial_significance. cbn [snd]. rewrite grid_23_in_window.
    real_lits. rewrite Rmult_0_l. apply Rabs_R0.
  - rewrite !Forall_map. apply Forall_forall. intros i Hi.
    apply in_seq in Hi. destruct (@grid_before_23 i) as [Hw Hs]; [lia|].
    unfold trial, trial_significance. cbn [snd]. rewrite Hw.
    real_ops. rewrite Rabs_pos_eq; [exact Hs | now left].
Qed.

End RealSweep.

(** * The calibration sweep and the end-to-end prediction *)

Section RealStatements.
Import LeptonG2CanonicalV361.
Local Open Scope string_scope.
Local Open Scope R_scope.

(** C3. Run as written (default engine, phases 2.17, 4.32, 10.53, the thirty
    samples of [np.linspace(1.43e-10, 1.46e-10, 30)] set one after the other as
    the muon raw correction and evaluated with the overlap variant, then
    [min] by absolute significance, first occurrence on ties), the calibration
    returns a best value inside [1.43e-10, 1.46e-10] and a significance of
    absolute value at most 0.05, so the script's success test holds.  The
    selected record is sample 23, whose significance is the literal 0.00 of the
    benchmark block. *)
Theorem calibration_round_trip :
  exists best_delta best_significance : R,
    calibrate_muon_g2_v361 = Ok (best_delta, best_significance) /\
    1.43e-10 <= best_delta <= 1.46e-10 /\
    Rabs best_significance <= 0.05 /\
    calibration_succeeded best_significance = true /\
    best_delta = grid 23 /\ best_significance = 0.
Proof.
  exists (grid 23), (lit 0.00).
  split; [exact calibration_selects_sample_23|].
  assert (H0 : (lit 0.00 : R) = 0) by (real_lits; lra).
  rewrite H0, grid_real, Rabs_R0. simpl INR.
  repeat split; try lra.
  unfold calibration_succeeded. real_ops. rewrite Rabs_R0.
  apply Rleb_true. real_lits. lra.
Qed.

(** At the selected sample the significance the formulas compute, which the
    benchmark block replaces, is above 13 standard deviations. *)
Lemma computed_significance_at_sample_23 :
  13 < (trial_correction (grid 23) - lit 2.51e-9) / lit 6.3e-10 < 13.2.
Proof.
  destruct trial_correction_gain as (g & Hg & ->).
  rewrite grid_real. simpl INR. real_lits.
  set (d := _ + _ * _).
  assert (Hd : 1.45379e-10 < d < 1.4538e-10) by (unfold d; lra).
  clearbody d.
  assert (H1 : 1.45379e-10 * 74.2398 <= d * g) by (apply Rmult_le_compat; lra).
  assert (H2 : d * g <= 1.4538e-10 * 74.24) by (apply Rmult_le_compat; lra).
  lra.
Qed.

Lemma benchmark_muon_prediction :
  exists a : R,
    predict_g2_correction benchmark_engine "muon" true = Ok a /\
    1.0792e-8 < a < 1.0794e-8.
Proof.
  destruct muon_gain as (g & Hg & H).
  exists (lit 1.4538e-10 * g). split.
  - rewrite <- (H benchmark_engine) by reflexivity.
    apply (@predict_muon R _ benchmark_engine (lit 1.4538e-10) true).
    + reflexivity.
    + apply amplitude_defined_real; simpl; real_lits; lra.
  - real_lits. lra.
Qed.

(** C7, as the code has it.  On the default engine with the phases set to
    (2.17, 4.32, 10.53), [predict_g2_correction("muon", True)] returns a value
    between 1.0792e-8 and 1.0794e-8: its order of magnitude is 1e-8. *)
Theorem muon_prediction_order_1e8 :
  exists a : R,
    predict_g2_correction benchmark_engine "muon" true = Ok a /\
    1.0792e-8 < a < 1.0794e-8 /\
    order_of_magnitude 1e-8 a.
Proof.
  destruct benchmark_muon_prediction as (a & Ha & Hb).
  exists a. split; [exact Ha|]. split; [exact Hb|].
  unfold order_of_magnitude. rewrite Rabs_pos_eq by lra. lra.
Qed.

(** C7 as stated fails: the value returned is more than ten times 1e-9. *)
Lemma muon_prediction_not_1e9 :
  ~ (exists a : R,
       predict_g2_correction benchmark_engine "muon" true = Ok a /\
       within_factor_ten 1e-9 a).
Proof.
  intros (a & Ha & Hw).
  destruct benchmark_muon_prediction as (a' & Ha' & Hb).
  rewrite Ha in Ha'. injection Ha' as <-.
  unfold within_factor_ten in Hw. rewrite Rabs_pos_eq in Hw by lra. lra.
Qed.

(** C6 as stated fails: on the default engine, whose toggle is on, switching
    it off returns [False], not the previous [True]. *)
Lemma set_hardcoded_calibration_not_previous :
  ~ returns_previous_state init_default false.
Proof. unfold returns_previous_state; simpl. discriminate. Qed.

(** ** The prediction against the formula of the specification *)

Lemma correction_value_spec (self : t R) (p : LeptonParameters) (v : bool) :
  mass p <> 0 -> heavyPartnerMass p <> 0 ->
  correction_value self (mass p) (heavyPartnerMass p) (phase p)
    (heavyPartnerPhase p) (rawCorrection p) v
  = predictCorrection_spec (c1 self) p
      (compute_chern2_cross (phase p) (heavyPartnerPhase p) v).
Proof.
  intros Hm Hh. unfold correction_value, predictCorrection_spec.
  generalize (compute_chern2_cross (phase p) (heavyPartnerPhase p) v); intros c2.
  unfold compute_lambda_topo, compute_topological_area. real_lits.
  pose proof PI_RGT_0 as Hpi.
  replace (- (c2 / (160 * / 10 * (PI * PI))) * c2)
    with (- (c2 / (16 * PI ^ 2) * c2)) by (field; lra).
  replace (10 * / 10) with 1 by lra.
  replace (c1 self * c1 self) with (c1 self ^ 2) by ring.
  replace (heavyPartnerMass p / mass p * (heavyPartnerMass p / mass p))
    with ((heavyPartnerMass p / mass p) ^ 2) by ring.
  reflexivity.
Qed.

Lemma predict_by_formula (num : Type) (F : PyFloat num) (self : t num)
    (lepton : string) (use_v361 : bool) (p : ResolvedLepton num) :
  resolve_store self lepton = Some p ->
  amplitude_defined self (lp_mass p) (lp_heavyMass p) ->
  predict_g2_correction self lepton use_v361
  = Ok (predictCorrection_formula (c1 self) p use_v361).
Proof.
  unfold resolve_store.
  destruct (String.eqb lepton "electron") eqn:He;
    [|destruct (String.eqb lepton "muon") eqn:Hmu;
      [|destruct (String.eqb lepton "tau") eqn:Ht; [|discriminate]]].
  - apply String.eqb_eq in He; subst lepton.
    destruct (dict_get (delta_a_nf self) "electron") as [d|] eqn:Hd; [|discriminate].
    intros Hp; injection Hp as <-. cbn [lp_mass lp_heavyMass]. intros Ha.
    now apply predict_electron.
  - apply String.eqb_eq in Hmu; subst lepton.
    destruct (dict_get (delta_a_nf self) "muon") as [d|] eqn:Hd; [|discriminate].
    intros Hp; injection Hp as <-. cbn [lp_mass lp_heavyMass]. intros Ha.
    now apply predict_muon.
  - apply String.eqb_eq in Ht; subst lepton.
    destruct (dict_get (delta_a_nf self) "tau") as [d|] eqn:Hd; [|discriminate].
    intros Hp; injection Hp as <-. cbn [lp_mass lp_heavyMass]. intros Ha.
    now apply predict_tau.
Qed.

(** When the arithmetic of the amplitude is not defined, the prediction of a
    resolved lepton raises, ZeroDivisionError or OverflowError: the
    hypothesis [amplitude_defined] is exactly the case in which it returns. *)
Lemma predict_raises_when_undefined (num : Type) (F : PyFloat num) (self : t num)
    (lepton : string) (use_v361 : bool) (p : ResolvedLepton num) :
  resolve_store self lepton = Some p ->
  ~ amplitude_defined self (lp_mass p) (lp_heavyMass p) ->
  predict_g2_correction self lepton use_v361 = Raise ZeroDivisionError \/
  predict_g2_correction self lepton use_v361 = Raise OverflowError.
Proof.
  assert (Hamp : forall ml mh d c2,
             ~ amplitude_defined self ml mh ->
             compute_amplitude_canonical self ml mh d c2 = Raise ZeroDivisionError \/
             compute_amplitude_canonical self ml mh d c2 = Raise OverflowError).
  { intros ml mh d c2 Hn. unfold amplitude_defined in Hn.
    unfold compute_amplitude_canonical, py_div, py_pow2.
    destruct (eqb ml (lit 0)) eqn:E1; [left; reflexivity|]. cbn [bind].
    destruct (sqr_overflow (div mh ml)) eqn:E2; [right; reflexivity|]. cbn [bind].
    destruct (sqr_overflow (c1 self)) eqn:E3; [right; reflexivity|]. cbn [bind].
    destruct (eqb (add (sqr (c1 self)) (sqr (div mh ml))) (lit 0)) eqn:E4;
      [left; reflexivity|].
    exfalso. apply Hn. auto. }
  unfold resolve_store, predict_g2_correction.
  destruct (String.eqb lepton "electron") eqn:He;
    [|destruct (String.eqb lepton "muon") eqn:Hmu;
      [|destruct (String.eqb lepton "tau") eqn:Ht; [|discriminate]]].
  - destruct (dict_get (delta_a_nf self) "electron") as [d|] eqn:Hd; [|discriminate].
    intros Hp; injection Hp as <-. cbn [lp_mass lp_heavyMass]. intros Hn.
    rewrite (getitem_Some _ _ Hd). cbn [bind].
    destruct (Hamp (m_e self) (m_mu self) d
                (compute_chern2_cross (phi_e self) (phi_mu self) use_v361) Hn)
      as [-> | ->]; [left | right]; reflexivity.
  - destruct (dict_get (delta_a_nf self) "muon") as [d|] eqn:Hd; [|discriminate].
    intros Hp; injection Hp as <-. cbn [lp_mass lp_heavyMass]. intros Hn.
    rewrite (getitem_Some _ _ Hd). cbn [bind].
    destruct (Hamp (m_mu self) (m_tau self) d
                (compute_chern2_cross (phi_mu self) (phi_tau self) use_v361) Hn)
      as [-> | ->]; [left | right]; reflexivity.
  - destruct (dict_get (delta_a_nf self) "tau") as [d|] eqn:Hd; [|discriminate].
    intros Hp; injection Hp as <-. cbn [lp_mass lp_heavyMass]. intros Hn.
    rewrite (getitem_Some _ _ Hd). cbn [bind].
    destruct (Hamp (m_tau self) (mul (m_tau self) (lit 2.0)) d
                (compute_chern2_cross (phi_tau self) (mul (phi_tau self) (lit 1.5))
                   use_v361) Hn)
      as [-> | ->]; [left | right]; reflexivity.
Qed.

Lemma resolve_store_spec (self : t R) (lepton : string) (p : ResolvedLepton R) :
  resolve_store self lepton = Some p ->
  resolve_spec self lepton = Some (spec_parameters p).
Proof.
  unfold resolve_store, resolve_spec.
  destruct (String.eqb lepton "electron");
    [|destruct (String.eqb lepton "muon");
      [|destruct (String.eqb lepton "tau"); [|discriminate]]].
  - destruct (dict_get (delta_a_nf self) "electron") as [d|]; [|discriminate].
    intros Hp; injection Hp as <-. reflexivity.
  - destruct (dict_get (delta_a_nf self) "muon") as [d|]; [|discriminate].
    intros Hp; injection Hp as <-. reflexivity.
  - destruct (dict_get (delta_a_nf self) "tau") as [d|]; [|discriminate].
    intros Hp; injection Hp as <-. cbn [option_map spec_parameters lp_mass
      lp_heavyMass lp_phase lp_heavyPhase lp_rawCorrection].
    assert (E1 : (m_tau self * lit 2.0)%py = 2 * m_tau self) by (real_lits; lra).
    assert (E2 : (phi_tau self * lit 1.5)%py = 1.5 * phi_tau self) by (real_lits; lra).
    rewrite <- E1, <- E2. reflexivity.
Qed.

Lemma predictCorrection_formula_spec (toleranceClass : R) (p : ResolvedLepton R)
    (v : bool) :
  predictCorrection_formula toleranceClass p v
  = predictCorrection_spec toleranceClass (spec_parameters p)
      (compute_chern2_cross (phase (spec_parameters p))
         (heavyPartnerPhase (spec_parameters p)) v).
Proof.
  unfold predictCorrection_formula, predictCorrection_spec.
  cbn [spec_parameters mass heavyPartnerMass phase heavyPartnerPhase rawCorrection].
  generalize (compute_chern2_cross (lp_phase p) (lp_heavyPhase p) v); intros c2.
  real_lits.
  pose proof PI_RGT_0 as Hpi.
  replace (- (c2 / (160 * / 10 * (PI * PI))) * c2)
    with (- (c2 / (16 * PI ^ 2) * c2)) by (field; lra).
  replace (10 * / 10) with 1 by lra.
  replace (toleranceClass * toleranceClass) with (toleranceClass ^ 2) by ring.
  replace (lp_heavyMass p / lp_mass p * (lp_heavyMass p / lp_mass p))
    with ((lp_heavyMass p / lp_mass p) ^ 2) by ring.
  reflexivity.
Qed.

(** C4. In every arithmetic (the doubles of the code included), for each of
    "electron", "muon" and "tau" with its five parameters resolved from the
    engine (the tau's partner synthesized as twice its mass and one and a half
    times its phase), whenever the arithmetic of the amplitude raises nothing
    (no zero divisor, no overflowing square), [predict_g2_correction] returns
    [A * (1 - exp(-lambda * c2))] with [c2] the cross class of the two phases,
    [lambda = c2 / (16 pi^2)], [K = (heavyMass / mass)^2],
    [epsilonTop = c2 / (c1^2 + K)] and [A = rawCorrection * K * epsilonTop].
    Over the reals the resolved parameters are those of the specification,
    this value is the specification's formula, and the condition holds as
    soon as both masses are not zero. *)
Theorem predict_follows_formula :
  (forall (num : Type) (F : PyFloat num) (self : t num) (lepton : string)
          (use_v361 : bool) (p : ResolvedLepton num),
     resolve_store self lepton = Some p ->
     amplitude_defined self (lp_mass p) (lp_heavyMass p) ->
     predict_g2_correction self lepton use_v361
     = Ok (predictCorrection_formula (c1 self) p use_v361)) /\
  (forall (self : t R) (lepton : string) (use_v361 : bool) (p : ResolvedLepton R),
     resolve_store self lepton = Some p ->
     resolve_spec self lepton = Some (spec_parameters p) /\
     predictCorrection_formula (c1 self) p use_v361
     = predictCorrection_spec (c1 self) (spec_parameters p)
         (compute_chern2_cross (phase (spec_parameters p))
            (heavyPartnerPhase (spec_parameters p)) use_v361) /\
     (lp_mass p <> 0 -> lp_heavyMass p <> 0 ->
      amplitude_defined self (lp_mass p) (lp_heavyMass p))).
Proof.
  split.
  - exact predict_by_formula.
  - intros self lepton use_v361 p Hr. split; [|split].
    + now apply resolve_store_spec.
    + apply predictCorrection_formula_spec.
    + intros Hm Hh. now apply amplitude_defined_real.
Qed.

End RealStatements.

(** * The literal table, in both arithmetics *)

Section Binary64Facts.
Import LeptonG2CanonicalV361.
Variable libm_exp : float -> float.

(** The reading of decimal literals agrees with correct rounding, here on
    the phases and the table entries. *)
#[warnings="-inexact-float"]
Lemma float_lit_rounds :
  float_lit 4.32 = 4.32%float /\ float_lit 10.53 = 10.53%float /\
  float_lit 2.17 = 2.17%float /\ float_lit 75.29 = 75.29%float /\
  float_lit 15.50 = 15.5%float /\ float_lit 37.8 = 37.8%float /\
  float_lit 1.4538e-10 = 1.4538e-10%float /\ float_lit 1e-14 = 1e-14%float.
Proof. vm_compute. repeat split. Qed.

Lemma chern2_table_binary64 :
  let B := Binary64 libm_exp in
  @compute_chern2_cross float B (lit 4.32) (lit 10.53) true = lit 75.29 /\
  @compute_chern2_cross float B (lit 2.17) (lit 4.32) true = lit 15.50 /\
  @compute_chern2_cross float B (lit 2.17) (lit 10.53) true = lit 37.8.
Proof. vm_compute. repeat split. Qed.

(** On doubles too, the default muon raw correction and sample 23 of the
    grid pass the matching test, and the neighbouring samples do not. *)
Lemma muon_window_binary64 :
  let B := Binary64 libm_exp in
  @muon_window float B (lit 1.4538e-10) = true /\
  @muon_window float B (@grid float B 23) = true /\
  @muon_window float B (@grid float B 22) = false /\
  @muon_window float B (@grid float B 24) = false.
Proof. vm_compute. repeat split. Qed.

End Binary64Facts.

(** On doubles a square can overflow: with [chern_class = 1e200] the masses
    are not zero but [c1 ** 2] raises, and so does the prediction.  The
    condition [amplitude_defined] excludes this state. *)
#[warnings="-inexact-float"]
Lemma overflowing_chern_class_binary64 (libm_exp : float -> float) :
  let B := Binary64 libm_exp in
  @LeptonG2CanonicalV361.predict_g2_correction float B
    (@LeptonG2CanonicalV361.init float B 1e200%float true) "muon" true
  = Raise OverflowError /\
  @sqr_overflow float B 1e200%float = true.
Proof. vm_compute. split; reflexivity. Qed.

(** C2. With the overlap variant, [compute_chern2_cross] returns the three
    literals of the table, as equalities and not up to a tolerance:
    (4.32, 10.53) gives 75.29, (2.17, 4.32) gives 15.50 and (2.17, 10.53)
    gives 37.8; this holds over the reals and, bit for bit, over the doubles
    of a Python float. *)
Theorem cross_class_table :
  (LeptonG2CanonicalV361.compute_chern2_cross (lit 4.32) (lit 10.53) true
     = (lit 75.29 : R) /\
   LeptonG2CanonicalV361.compute_chern2_cross (lit 2.17) (lit 4.32) true
     = (lit 15.50 : R) /\
   LeptonG2CanonicalV361.compute_chern2_cross (lit 2.17) (lit 10.53) true
     = (lit 37.8 : R)) /\
  (forall libm_exp : float -> float,
     let B := Binary64 libm_exp in
     @LeptonG2CanonicalV361.compute_chern2_cross float B (lit 4.32) (lit 10.53) true
       = lit 75.29 /\
     @LeptonG2CanonicalV361.compute_chern2_cross float B (lit 2.17) (lit 4.32) true
       = lit 15.50 /\
     @LeptonG2CanonicalV361.compute_chern2_cross float B (lit 2.17) (lit 10.53) true
       = lit 37.8).
Proof.
  split; [exact chern2_table_real | exact chern2_table_binary64].
Qed.

(** * The statements at the default engine *)

Section DefaultEngine.
Import LeptonG2CanonicalV361.
Local Open Scope string_scope.
Local Open Scope R_scope.

Lemma benchmark_amplitude_defined_muon :
  amplitude_defined (benchmark_engine : t R)
    (m_mu benchmark_engine) (m_tau benchmark_engine).
Proof. apply amplitude_defined_real; simpl; real_lits; lra. Qed.

Lemma benchmark_amplitude_defined_electron :
  amplitude_defined (benchmark_engine : t R)
    (m_e benchmark_engine) (m_mu benchmark_engine).
Proof. apply amplitude_defined_real; simpl; real_lits; lra. Qed.

Lemma benchmark_amplitude_defined_tau :
  amplitude_defined (benchmark_engine : t R)
    (m_tau benchmark_engine) (m_tau benchmark_engine * lit 2.0)%py.
Proof. apply amplitude_defined_real; simpl; real_lits; lra. Qed.

Lemma default_muon_in_window : muon_window (lit 1.4538e-10 : R) = true.
Proof.
  unfold muon_window. real_ops. rewrite Rminus_diag, Rabs_R0.
  apply Rltb_true. real_lits. lra.
Qed.

Lemma default_sigma_mu_positive :
  (sigma_mu_exp (benchmark_engine : t R) >? lit 0)%py = true.
Proof. cbn. apply Rltb_true. real_lits. lra. Qed.

Lemma default_sigma_e_positive :
  (sigma_e_exp (benchmark_engine : t R) >? lit 0)%py = true.
Proof. cbn. apply Rltb_true. real_lits. lra. Qed.

(** The override toggling of C1 on the default engine, with the prediction
    computed by the call itself. *)
Lemma muon_override_toggle_default :
  significance_of
    (calculate_significance
       (fst (set_hardcoded_calibration (benchmark_engine : t R) true))
       "muon" None true) = Ok (Some (lit 0.00)) /\
  significance_of
    (calculate_significance
       (fst (set_hardcoded_calibration (benchmark_engine : t R) false))
       "muon" None true)
  = Ok (Some ((correction_value benchmark_engine (m_mu benchmark_engine)
                 (m_tau benchmark_engine) (phi_mu benchmark_engine)
                 (phi_tau benchmark_engine) (lit 1.4538e-10) true
               - a_mu_exp benchmark_engine) / sigma_mu_exp benchmark_engine))%py.
Proof.
  apply (@muon_override_toggle R _ benchmark_engine None _ (lit 1.4538e-10)).
  - reflexivity.
  - exact default_muon_in_window.
  - reflexivity.
  - exact default_sigma_mu_positive.
  - apply predict_muon; [reflexivity | exact benchmark_amplitude_defined_muon].
Defined.

(** The windows of C10 on the default engine: both raw corrections are the
    calibrated ones, so both targets are returned. *)
Lemma override_windows_default :
  significance_of (calculate_significance (benchmark_engine : t R) "muon" None true)
    = Ok (Some (lit 0.00)) /\
  significance_of (calculate_significance (benchmark_engine : t R) "electron" None true)
    = Ok (Some (lit 0.11)).
Proof.
  pose proof (@override_windows R _ benchmark_engine None None _ _
                (lit 1.4538e-10) (lit 3.1e-17)
                eq_refl eq_refl eq_refl eq_refl
                default_sigma_mu_positive default_sigma_e_positive
                (@predict_muon R _ benchmark_engine _ true eq_refl
                   benchmark_amplitude_defined_muon)
                (@predict_electron R _ benchmark_engine _ true eq_refl
                   benchmark_amplitude_defined_electron)) as [Hmu He].
  split.
  - rewrite Hmu. real_ops. rewrite Rminus_diag, Rabs_R0.
    rewrite Rltb_true by (real_lits; lra). reflexivity.
  - rewrite He. real_ops. rewrite Rminus_diag, Rabs_R0.
    rewrite Rltb_true by (real_lits; lra). reflexivity.
Defined.

(** C9 on the default engine, the prediction computed by the call. *)
Lemma tau_significance_absent_default :
  exists r,
    calculate_significance
      (fst (set_hardcoded_calibration (benchmark_engine : t R) true))
      "tau" None true = Ok r /\
    r_significance r = None /\ r_delta r = None.
Proof.
  eapply (@tau_significance_absent R _ benchmark_engine None true true).
  apply predict_tau; [reflexivity | exact benchmark_amplitude_defined_tau].
Defined.

(** C8 at the name "positron". *)
Lemma unsupported_lepton_raises_positron :
  predict_g2_correction (benchmark_engine : t R) "positron" true
    = Raise (ValueError "Lepton type 'positron' not supported") /\
  set_delta_a_nf (benchmark_engine : t R) "positron" 1
    = Raise (ValueError "Lepton type 'positron' not supported").
Proof.
  apply (@unsupported_lepton_raises R _ benchmark_engine "positron" true 1);
    discriminate.
Defined.

(** C5 at the phases (1.0, 2.0), a pair outside the table. *)
Lemma cross_class_formula_outside_table :
  table_pair (lit 1.0 : R) (lit 2.0) = false /\
  (compute_chern2_cross (lit 1.0 : R) (lit 2.0) true
   = lit 2.0 * lit 1.0 * lit 2.0 * (lit 1.0 - lit 2.0 / (lit 4.0 * np_pi)))%py.
Proof.
  assert (H : table_pair (lit 1.0 : R) (lit 2.0) = false).
  { unfold table_pair. real_ops. real_tests. reflexivity. }
  split; [exact H|].
  exact (proj1 (proj2 (@cross_class_formula R _ (lit 1.0) (lit 2.0)) H)).
Defined.

(** C4 for the muon of the default engine: the code returns the value of the
    specification's formula. *)
Lemma predict_follows_formula_default_muon :
  predict_g2_correction (benchmark_engine : t R) "muon" true
  = Ok (predictCorrection_spec (lit 2.0)
          {| mass := lit 0.105658; heavyPartnerMass := lit 1.77686;
             phase := lit 4.32; heavyPartnerPhase := lit 10.53;
             rawCorrection := lit 1.4538e-10 |}
          (lit 75.29)).
Proof.
  destruct predict_follows_formula as [Hcode Hreal].
  pose (p := {| lp_mass := lit 0.105658 : R; lp_heavyMass := lit 1.77686;
                lp_phase := lit 4.32; lp_heavyPhase := lit 10.53;
                lp_rawCorrection := lit 1.4538e-10 |}).
  assert (Hr : resolve_store (benchmark_engine : t R) "muon" = Some p)
    by reflexivity.
  destruct (Hreal benchmark_engine "muon" true p Hr) as (_ & Hf & Hd).
  rewrite (Hcode R _ benchmark_engine "muon" true p Hr).
  - rewrite Hf. cbn [spec_parameters p phase heavyPartnerPhase lp_mass lp_heavyMass
                     lp_phase lp_heavyPhase lp_rawCorrection].
    now rewrite (proj1 chern2_table_real).
  - apply Hd; cbn [p lp_mass lp_heavyMass]; real_lits; lra.
Defined.

End DefaultEngine.

(** * Reachable states, over the reals

    On every state the class can reach, the prediction returns for the three
    leptons and both uncertainties are positive: the side conditions of the
    statements above hold there. *)

Section ReachableReal.
Import LeptonG2CanonicalV361.
Local Open Scope string_scope.
Local Open Scope R_scope.

Lemma reachable_predict_returns (self : t R) (lepton : string) (use_v361 : bool) :
  reachable self ->
  str_in lepton ["electron"; "muon"; "tau"] = true ->
  exists a, predict_g2_correction self lepton use_v361 = Ok a.
Proof.
  intros Hr Hin. apply reachable_attributes_intact in Hr.
  destruct Hr as (He & Hmu & Htau & _ & _ & _ & _ & _ & _ & Hd).
  apply str_in_leptons_true in Hin. destruct Hin as [-> | [-> | ->]].
  - eexists. apply predict_electron.
    + rewrite Hd; reflexivity.
    + apply amplitude_defined_real; rewrite ?He, ?Hmu; real_lits; lra.
  - eexists. apply predict_muon.
    + rewrite Hd; reflexivity.
    + apply amplitude_defined_real; rewrite ?Hmu, ?Htau; real_lits; lra.
  - eexists. apply predict_tau.
    + rewrite Hd; reflexivity.
    + apply amplitude_defined_real; rewrite ?Htau; real_lits; lra.
Qed.

Lemma reachable_sigma_positive (self : t R) :
  reachable self ->
  (sigma_mu_exp self >? lit 0)%py = true /\ (sigma_e_exp self >? lit 0)%py = true.
Proof.
  intros Hr. apply reachable_attributes_intact in Hr.
  destruct Hr as (_ & _ & _ & _ & _ & Hsm & _ & _ & Hse & _).
  rewrite Hsm, Hse. real_ops. split; apply Rltb_true; real_lits; lra.
Qed.

(** The overlap applied outside the table is the second phase's, and it is
    not the first phase's: at (1.0, 2.0) the two differ. *)
Lemma cross_class_not_first_phase :
  compute_chern2_cross (lit 1.0 : R) (lit 2.0) true
  <> (lit 2.0 * lit 1.0 * lit 2.0 * compute_berry_overlap (lit 1.0))%py.
Proof.
  unfold compute_chern2_cross, compute_berry_overlap. real_ops. cbn [negb].
  real_tests. cbn [andb]. real_lits.
  pose proof PI_RGT_0 as Hpi. intros H.
  assert (Hinv : 0 < / (40 * / 10 * PI)) by (apply Rinv_0_lt_compat; lra).
  unfold Rdiv in H. lra.
Qed.

End ReachableReal.

(** * Further properties of the engine, in every arithmetic *)

Section MoreEngineFacts.
Context {num : Type} {F : PyFloat num}.
Local Open Scope string_scope.
Local Open Scope py_scope.
Import LeptonG2CanonicalV361.

(** X1. [calculate_significance] raises the ValueError of an unsupported
    lepton for every name other than the three, whether a correction is passed
    (the method's own check) or not (the check of the prediction). *)
Theorem calculate_significance_unsupported (self : t num) (lepton : string)
    (a_lepton_eqft : option num) (use_v361 : bool) :
  lepton <> "electron" -> lepton <> "muon" -> lepton <> "tau" ->
  calculate_significance self lepton a_lepton_eqft use_v361
  = Raise (ValueError ("Lepton type '" ++ lepton ++ "' not supported")).
Proof.
  intros He Hm Ht. unfold calculate_significance.
  destruct a_lepton_eqft as [a|].
  - apply String.eqb_neq in He, Hm, Ht. cbn [bind]. rewrite He, Hm, Ht. reflexivity.
  - rewrite predict_unsupported by assumption. reflexivity.
Qed.

(** X2. With [use_v361=False] the benchmark block never replaces anything:
    for the muon and for the electron the significance returned is the
    computed quotient, whatever the toggle and the raw corrections are. *)
Theorem basic_variant_never_overridden (self : t num)
    (a_opt_mu a_opt_e : option num) (a_mu a_e : num) :
  (sigma_mu_exp self >? lit 0) = true ->
  (sigma_e_exp self >? lit 0) = true ->
  correction_is self "muon" a_opt_mu false a_mu ->
  correction_is self "electron" a_opt_e false a_e ->
  significance_of (calculate_significance self "muon" a_opt_mu false)
    = Ok (Some ((a_mu - a_mu_exp self) / sigma_mu_exp self)) /\
  significance_of (calculate_significance self "electron" a_opt_e false)
    = Ok (Some ((a_e_sm self + a_e - a_e_exp self) / sigma_e_exp self)).
Proof.
  intros Hsm Hse Hm He. split.
  - apply calculate_significance_muon with (a := a_mu); auto.
    apply benchmark_override_off. apply andb_false_r.
  - apply calculate_significance_electron with (a := a_e); auto.
    apply benchmark_override_off. apply andb_false_r.
Qed.

(** X3. When the muon uncertainty is not positive, no division takes place:
    the dictionary returned for the muon carries the discrepancy but
    "significance" is None, in benchmark mode as well. *)
Theorem nonpositive_uncertainty_no_significance (self : t num)
    (a_opt : option num) (use_v361 : bool) (a : num) :
  (sigma_mu_exp self >? lit 0) = false ->
  correction_is self "muon" a_opt use_v361 a ->
  exists r,
    calculate_significance self "muon" a_opt use_v361 = Ok r /\
    r_delta r = Some (a - a_mu_exp self) /\
    r_significance r = None.
Proof.
  intros Hs Ha. unfold calculate_significance.
  erewrite correction_is_bind by exact Ha; simpl.
  rewrite Hs. simpl. eexists; split; [reflexivity|]. simpl; auto.
Qed.

(** ** The setters *)

Lemma setitem_setitem {V : Type} (d : dict V) (k : string) (v1 v2 : V) :
  setitem (setitem d k v1) k v2 = setitem d k v2.
Proof.
  induction d as [|[k' v'] d IH]; simpl.
  - now rewrite String.eqb_refl.
  - destruct (String.eqb k k') eqn:E; simpl.
    + now rewrite String.eqb_refl.
    + now rewrite E, IH.
Qed.

Lemma str_in_leptons_intro (lepton : string) :
  lepton = "electron" \/ lepton = "muon" \/ lepton = "tau" ->
  str_in lepton ["electron"; "muon"; "tau"] = true.
Proof. intros [-> | [-> | ->]]; reflexivity. Qed.

(** X4. For each of the three leptons [set_delta_a_nf] succeeds; afterwards
    the dictionary holds the value under that lepton and every other key as
    before, the lepton's back-compatibility attribute holds the value too, and
    the constant, the toggle, the phases and the masses are untouched. *)
Theorem set_delta_a_nf_round_trip (self : t num) (lepton : string) (value : num) :
  lepton = "electron" \/ lepton = "muon" \/ lepton = "tau" ->
  exists self',
    set_delta_a_nf self lepton value = Ok self' /\
    dict_get (delta_a_nf self') lepton = Some value /\
    (forall k, k <> lepton ->
       dict_get (delta_a_nf self') k = dict_get (delta_a_nf self) k) /\
    alias_of self' lepton = Some value /\
    c1 self' = c1 self /\
    hardcoded_calibration self' = hardcoded_calibration self /\
    (phi_e self', phi_mu self', phi_tau self') = (phi_e self, phi_mu self, phi_tau self) /\
    (m_e self', m_mu self', m_tau self') = (m_e self, m_mu self, m_tau self).
Proof.
  intros Hl. unfold set_delta_a_nf.
  rewrite (str_in_leptons_intro Hl). cbn [negb].
  eexists; split; [reflexivity|].
  destruct Hl as [-> | [-> | ->]]; cbn;
    (split; [apply dict_get_setitem_same|]);
    (split; [intros k Hk; now apply dict_get_setitem_other|]);
    repeat split.
Qed.

(** X5. The last write wins: setting a lepton's raw correction twice leaves
    the engine as setting it once to the second value does. *)
Theorem set_delta_a_nf_last_write_wins (self s1 s2 : t num) (lepton : string)
    (v1 v2 : num) :
  set_delta_a_nf self lepton v1 = Ok s1 ->
  set_delta_a_nf s1 lepton v2 = Ok s2 ->
  set_delta_a_nf self lepton v2 = Ok s2.
Proof.
  unfold set_delta_a_nf.
  destruct (str_in lepton ["electron"; "muon"; "tau"]) eqn:Hin; cbn [negb];
    [|discriminate].
  intros H1 H2. injection H1 as <-. injection H2 as <-. f_equal.
  destruct (String.eqb lepton "electron");
    [|destruct (String.eqb lepton "muon"); [|destruct (String.eqb lepton "tau")]];
    cbn; now rewrite setitem_setitem.
Qed.

(** X6. The class keeps this invariant on every state it can reach: masses,
    experimental references and the target table hold what [__init__] gave
    them, and the dictionary of raw corrections has exactly the keys
    "electron", "muon", "tau", each equal to its back-compatibility
    attribute. *)
Theorem reachable_keeps_attributes (self : t num) :
  reachable self ->
  attributes_intact self /\
  (forall lepton, lepton = "electron" \/ lepton = "muon" \/ lepton = "tau" ->
     dict_get (delta_a_nf self) lepton = alias_of self lepton) /\
  (forall lepton, dict_mem (delta_a_nf self) lepton
                  = str_in lepton ["electron"; "muon"; "tau"]).
Proof.
  intros H. apply reachable_attributes_intact in H as Hi.
  split; [exact Hi|].
  destruct Hi as (_ & _ & _ & _ & _ & _ & _ & _ & _ & Hd).
  split.
  - intros lepton [-> | [-> | ->]]; rewrite Hd; reflexivity.
  - intros lepton. unfold dict_mem, str_in. rewrite Hd. simpl.
    destruct (String.eqb lepton "electron"); [reflexivity|].
    destruct (String.eqb lepton "muon"); [reflexivity|].
    destruct (String.eqb lepton "tau"); reflexivity.
Qed.

(** X7. [set_berry_phases] overwrites exactly the phases that are passed:
    two calls in a row amount to one call with, for each phase, the later
    argument when it is given and the earlier one otherwise; a call with no
    argument changes nothing. *)
Theorem set_berry_phases_compose (self : t num)
    (e1 m1 t1 e2 m2 t2 : option num) :
  set_berry_phases (set_berry_phases self e1 m1 t1) e2 m2 t2
  = set_berry_phases self (later_argument e2 e1) (later_argument m2 m1)
      (later_argument t2 t1) /\
  phi_e (set_berry_phases self e1 m1 t1) = phase_argument e1 (phi_e self) /\
  phi_mu (set_berry_phases self e1 m1 t1) = phase_argument m1 (phi_mu self) /\
  phi_tau (set_berry_phases self e1 m1 t1) = phase_argument t1 (phi_tau self) /\
  delta_a_nf (set_berry_phases self e1 m1 t1) = delta_a_nf self /\
  set_berry_phases self None None None = self.
Proof.
  destruct self.
  destruct e1, m1, t1, e2, m2, t2; repeat split.
Qed.

End MoreEngineFacts.

(** * Further properties of the two framework classes *)

Section MoreFrameworkFacts.
Context {num : Type} {F : PyFloat num}.
Local Open Scope string_scope.
Local Open Scope py_scope.

Lemma particle_not_in_sm_values {V : Type} (particle_name : string) (x y z : V) :
  particle_name <> "electron" -> particle_name <> "muon" -> particle_name <> "tau" ->
  dict_mem [("electron", x); ("muon", y); ("tau", z)] particle_name = false.
Proof.
  intros He Hm Ht. unfold dict_mem; simpl.
  apply String.eqb_neq in He, Hm, Ht. now rewrite He, Hm, Ht.
Qed.

(** X8. For a particle name other than the three, both versions of
    [calculate_anomalous_magnetic_moment] raise KeyError('a_sm'), from the log
    line of the parent method, and not the ValueError of the engine: the
    subclass calls the parent first, whatever its three flags are. *)
Theorem unknown_particle_key_error
    (base : EnhancedUnifiedFramework.t num) (fw : UnifiedFrameworkWithV361.t num)
    (particle_name : string) (include_topological_correction use_canonical use_v361 : bool) :
  particle_name <> "electron" -> particle_name <> "muon" -> particle_name <> "tau" ->
  EnhancedUnifiedFramework.calculate_anomalous_magnetic_moment
    base particle_name include_topological_correction = Raise (KeyError "a_sm") /\
  UnifiedFrameworkWithV361.calculate_anomalous_magnetic_moment
    fw particle_name include_topological_correction use_canonical use_v361
  = Raise (KeyError "a_sm").
Proof.
  intros He Hm Ht.
  unfold UnifiedFrameworkWithV361.calculate_anomalous_magnetic_moment,
    EnhancedUnifiedFramework.calculate_anomalous_magnetic_moment.
  rewrite !particle_not_in_sm_values by assumption. split; reflexivity.
Qed.

(** X9. The non-canonical path does not exist in this repository: with the
    topological correction requested and [use_canonical=False], the call
    raises AttributeError for [compute_g_minus_2] for each of the three
    leptons, before the calculator is consulted. *)
Theorem standard_approach_unavailable (fw : UnifiedFrameworkWithV361.t num)
    (particle_name : string) (use_v361 : bool) :
  particle_name = "electron" \/ particle_name = "muon" \/ particle_name = "tau" ->
  UnifiedFrameworkWithV361.calculate_anomalous_magnetic_moment
    fw particle_name true false use_v361
  = Raise (AttributeError "compute_g_minus_2").
Proof.
  intros [-> | [-> | ->]];
    unfold UnifiedFrameworkWithV361.calculate_anomalous_magnetic_moment,
      UnifiedFrameworkWithV361.compute_g_minus_2; simpl;
    try reflexivity;
    destruct (lit 2.8e-13 >? lit 0); reflexivity.
Qed.

(** X10. [compute_g_minus_2_canonical] answers 0.0 for a fermion it does not
    know, but [compute_g_minus_2] never lets such a fermion reach it: for
    every value of its flags it raises AttributeError. *)
Theorem unknown_fermion_correction (fw : UnifiedFrameworkWithV361.t num)
    (fermion : string) (topological_charge : num) (use_canonical use_v361 : bool) :
  fermion <> "electron" -> fermion <> "muon" -> fermion <> "tau" ->
  UnifiedFrameworkWithV361.compute_g_minus_2_canonical fw fermion use_v361
    = Ok (lit 0.0) /\
  UnifiedFrameworkWithV361.compute_g_minus_2 fw fermion topological_charge
    use_canonical use_v361 = Raise (AttributeError "compute_g_minus_2").
Proof.
  intros He Hm Ht.
  assert (H : str_in fermion ["muon"; "electron"; "tau"] = false).
  { unfold str_in; simpl. apply String.eqb_neq in He, Hm, Ht.
    now rewrite He, Hm, Ht. }
  unfold UnifiedFrameworkWithV361.compute_g_minus_2_canonical,
    UnifiedFrameworkWithV361.compute_g_minus_2.
  rewrite H. split; reflexivity.
Qed.

(** X11. Without the topological correction the framework does not consult
    the calculator: for each of the three leptons the call returns, with
    [a_nf = 0.0], [a_total = a_sm + 0.0] and no "canonical_info", whatever the
    calculator holds and whatever the two canonical flags are. *)
Theorem no_correction_requested (fw : UnifiedFrameworkWithV361.t num)
    (particle_name : string) (use_canonical use_v361 : bool) :
  particle_name = "electron" \/ particle_name = "muon" \/ particle_name = "tau" ->
  exists r,
    UnifiedFrameworkWithV361.calculate_anomalous_magnetic_moment
      fw particle_name false use_canonical use_v361 = Ok r /\
    EnhancedUnifiedFramework.a_nf r = lit 0.0 /\
    EnhancedUnifiedFramework.a_total r = EnhancedUnifiedFramework.a_sm r + lit 0.0 /\
    EnhancedUnifiedFramework.canonical_info r = None.
Proof.
  intros [-> | [-> | ->]];
    unfold UnifiedFrameworkWithV361.calculate_anomalous_magnetic_moment; simpl;
    rewrite !andb_false_r; simpl;
    eexists; (split; [reflexivity|]); simpl; auto.
Qed.

(** X12. For the tau the framework returns a dictionary with the prediction
    and the canonical information but without "discrepancy" and without
    "discrepancy_sigma": a caller that reads either key gets a KeyError. *)
Theorem framework_tau_no_discrepancy (fw : UnifiedFrameworkWithV361.t num)
    (use_v361 : bool) (a : num) :
  LeptonG2CanonicalV361.predict_g2_correction
    (UnifiedFrameworkWithV361.g2_calculator fw) "tau" use_v361 = Ok a ->
  exists r,
    UnifiedFrameworkWithV361.calculate_anomalous_magnetic_moment
      fw "tau" true true use_v361 = Ok r /\
    EnhancedUnifiedFramework.a_nf r = a /\
    EnhancedUnifiedFramework.discrepancy r = None /\
    EnhancedUnifiedFramework.discrepancy_sigma r = None /\
    discrepancy_sigma_item r = Raise (KeyError "discrepancy_sigma") /\
    EnhancedUnifiedFramework.canonical_info r <> None.
Proof.
  intros Hp.
  unfold UnifiedFrameworkWithV361.calculate_anomalous_magnetic_moment,
    UnifiedFrameworkWithV361.compute_g_minus_2,
    UnifiedFrameworkWithV361.compute_g_minus_2_canonical; simpl.
  rewrite Hp; simpl.
  eexists; split; [reflexivity|]. unfold discrepancy_sigma_item; simpl.
  repeat split; discriminate.
Qed.

(** X13. For the electron the framework's "discrepancy" is the experimental
    value minus the total built on the framework's own Standard-Model value
    1.159652e-3, and its "discrepancy_sigma" is not derived from it: it is the
    significance the calculator returns for the same correction. *)
Theorem framework_electron_sigma_from_calculator
    (fw : UnifiedFrameworkWithV361.t num) (use_v361 : bool) (a s : num) :
  LeptonG2CanonicalV361.predict_g2_correction
    (UnifiedFrameworkWithV361.g2_calculator fw) "electron" use_v361 = Ok a ->
  significance_of
    (LeptonG2CanonicalV361.calculate_significance
       (UnifiedFrameworkWithV361.g2_calculator fw) "electron" (Some a) use_v361)
    = Ok (Some s) ->
  exists r,
    UnifiedFrameworkWithV361.calculate_anomalous_magnetic_moment
      fw "electron" true true use_v361 = Ok r /\
    EnhancedUnifiedFramework.a_nf r = a /\
    EnhancedUnifiedFramework.a_total r = lit 1.159652000000e-03 + a /\
    EnhancedUnifiedFramework.discrepancy r
      = Some (lit 1.15965218073e-3 - (lit 1.159652000000e-03 + a)) /\
    EnhancedUnifiedFramework.discrepancy_sigma r = Some s.
Proof.
  intros Hp Hs. apply significance_of_Ok in Hs as (c & Hc & Hcs).
  unfold UnifiedFrameworkWithV361.calculate_anomalous_magnetic_moment,
    UnifiedFrameworkWithV361.compute_g_minus_2,
    UnifiedFrameworkWithV361.compute_g_minus_2_canonical; simpl.
  rewrite Hp; simpl. rewrite Hc; simpl. rewrite Hcs.
  eexists; split; [reflexivity|]. simpl.
  destruct (lit 2.8e-13 >? lit 0); simpl; auto.
Qed.

End MoreFrameworkFacts.

(** * Further properties over the reals *)

Section MoreRealFacts.
Import LeptonG2CanonicalV361.
Local Open Scope string_scope.
Local Open Scope R_scope.

Lemma PI_upper : PI <= 3.5.
Proof.
  pose proof (PI_ineq 1) as [_ H].
  unfold sum_f_R0, tg_alt, PI_tg in H. simpl in H. lra.
Qed.



Lemma compute_chern2_cross_fallback (phi_l1 phi_l2 : R) :
  table_pair phi_l1 phi_l2 = false ->
  compute_chern2_cross phi_l1 phi_l2 true
  = 2 * phi_l1 * phi_l2 * (1 - phi_l2 / (4 * PI)).
Proof.
  intros H. unfold table_pair in H. unfold compute_chern2_cross.
  apply orb_false_iff in H as [H H3]. apply orb_false_iff in H as [H1 H2].
  cbn [negb]. rewrite H1, H2, H3. real_lits. unfold Rdiv.
  replace (20 * / 10) with 2 by lra. replace (10 * / 10) with 1 by lra.
  replace (40 * / 10) with 4 by lra. reflexivity.
Qed.



End MoreRealFacts.

Section PredictionShape.
Import LeptonG2CanonicalV361.
Local Open Scope string_scope.
Local Open Scope R_scope.

(** The code's prediction in terms of the resolved parameters. *)
Lemma predict_resolved (self : t R) (lepton : string) (use_v361 : bool)
    (p : LeptonParameters) :
  resolve_spec self lepton = Some p ->
  mass p <> 0 -> heavyPartnerMass p <> 0 ->
  amplitude_defined self (mass p) (heavyPartnerMass p) /\
  predict_g2_correction self lepton use_v361
  = Ok (correction_value self (mass p) (heavyPartnerMass p) (phase p)
          (heavyPartnerPhase p) (rawCorrection p) use_v361).
Proof.
  unfold resolve_spec.
  destruct (String.eqb lepton "electron") eqn:He;
    [|destruct (String.eqb lepton "muon") eqn:Hmu;
      [|destruct (String.eqb lepton "tau") eqn:Ht; [|discriminate]]].
  - apply String.eqb_eq in He; subst lepton.
    destruct (dict_get (delta_a_nf self) "electron") as [d|] eqn:Hd; [|discriminate].
    intros Hp; injection Hp as <-;
      cbn [mass heavyPartnerMass phase heavyPartnerPhase rawCorrection]. intros Hm Hh.
    pose proof (amplitude_defined_real self Hm Hh) as Ha.
    split; [exact Ha | now apply predict_electron].
  - apply String.eqb_eq in Hmu; subst lepton.
    destruct (dict_get (delta_a_nf self) "muon") as [d|] eqn:Hd; [|discriminate].
    intros Hp; injection Hp as <-;
      cbn [mass heavyPartnerMass phase heavyPartnerPhase rawCorrection]. intros Hm Hh.
    pose proof (amplitude_defined_real self Hm Hh) as Ha.
    split; [exact Ha | now apply predict_muon].
  - apply String.eqb_eq in Ht; subst lepton.
    destruct (dict_get (delta_a_nf self) "tau") as [d|] eqn:Hd; [|discriminate].
    intros Hp; injection Hp as <-;
      cbn [mass heavyPartnerMass phase heavyPartnerPhase rawCorrection]. intros Hm Hh.
    assert (E1 : (m_tau self * lit 2.0)%py = 2 * m_tau self) by (real_lits; lra).
    assert (E2 : (phi_tau self * lit 1.5)%py = 1.5 * phi_tau self) by (real_lits; lra).
    pose proof (amplitude_defined_real self Hm Hh) as Ha.
    split; [exact Ha|].
    rewrite <- E1, <- E2. apply predict_tau; [exact Hd|]. now rewrite E1.
Qed.

Lemma damping_factor_range (c2 : R) :
  0 <= (lit 1.0 - np_exp (- compute_lambda_topo c2 * c2))%py < 1.
Proof.
  unfold compute_lambda_topo, compute_topological_area. real_lits.
  pose proof PI_RGT_0 as Hpi.
  assert (Hd : 0 < 160 * / 10 * (PI * PI)) by nra.
  assert (Hx : - (c2 / (160 * / 10 * (PI * PI))) * c2 <= 0).
  { unfold Rdiv.
    assert (0 < / (160 * / 10 * (PI * PI))) by now apply Rinv_0_lt_compat.
    assert (0 <= c2 * c2) by nra. nra. }
  pose proof (exp_pos (- (c2 / (160 * / 10 * (PI * PI))) * c2)) as He.
  pose proof (exp_monotone Hx) as Hm. rewrite exp_0 in Hm. lra.
Qed.

Lemma damping_factor_closed_range (c2 : R) : 0 <= damping_factor c2 <= 1.
Proof.
  pose proof (damping_factor_range c2) as H. unfold damping_factor. lra.
Qed.

(** X16. In every arithmetic, for a resolved lepton whose amplitude
    arithmetic raises nothing, [compute_amplitude_canonical] returns the
    amplitude [A] and [predict_g2_correction] returns [A] times the damping
    factor [1 - exp(-lambda * c2)].  Over the reals that factor lies in
    [0, 1], so the prediction never exceeds the amplitude in absolute value
    and never has the opposite sign. *)
Theorem prediction_bounded_by_amplitude :
  (forall (num : Type) (F : PyFloat num) (self : t num) (lepton : string)
          (use_v361 : bool) (p : ResolvedLepton num),
     resolve_store self lepton = Some p ->
     amplitude_defined self (lp_mass p) (lp_heavyMass p) ->
     exists A : num,
       compute_amplitude_canonical self (lp_mass p) (lp_heavyMass p)
         (lp_rawCorrection p)
         (compute_chern2_cross (lp_phase p) (lp_heavyPhase p) use_v361) = Ok A /\
       predict_g2_correction self lepton use_v361
       = Ok (A * damping_factor
                   (compute_chern2_cross (lp_phase p) (lp_heavyPhase p) use_v361))%py) /\
  (forall c2 : R, 0 <= damping_factor c2 <= 1) /\
  (forall A c2 : R,
     Rabs (A * damping_factor c2) <= Rabs A /\ 0 <= (A * damping_factor c2) * A).
Proof.
  split; [|split].
  - intros num F self lepton use_v361 p Hr Ha.
    rewrite (compute_amplitude_canonical_defined _ _ Ha).
    eexists. split; [reflexivity|].
    now rewrite (@predict_by_formula num F self lepton use_v361 p Hr Ha).
  - exact damping_factor_closed_range.
  - intros A c2. pose proof (damping_factor_closed_range c2) as Hf.
    set (f := damping_factor c2) in *. clearbody f. split.
    + rewrite Rabs_mult. rewrite (Rabs_pos_eq f) by lra.
      pose proof (Rabs_pos A). nra.
    + assert (0 <= A * A) by nra. nra.
Qed.


End PredictionShape.

Section MoreSweepFacts.
Import LeptonG2CanonicalV361.
Local Open Scope string_scope.
Local Open Scope R_scope.


Lemma last_cons_default {A : Type} (l : list A) (d d1 : A) :
  last (d :: l) d1 = last l d.
Proof.
  revert d d1. induction l as [|a l IH]; intros d d1; [reflexivity|].
  change (last (d :: a :: l) d1) with (last (a :: l) d1).
  now rewrite !IH.
Qed.

(** X19. On the default framework the sweep loop, given any list of trial
    values, raises nothing and returns one record per trial, in the order of
    the trials, each holding its trial value; the framework it leaves behind
    holds the last trial as the muon raw correction, not the best one. *)
Theorem sweep_records_follow_trials (delta_values : list R) (d0 : R) :
  exists results,
    sweep (swept_framework d0) [] delta_values
      = Ok (swept_framework (last delta_values d0), results) /\
    map (fun x : record R => fst (fst x)) results = delta_values /\
    length results = length delta_values /\
    dict_get (delta_a_nf (UnifiedFrameworkWithV361.g2_calculator
                            (swept_framework (last delta_values d0)))) "muon"
      = Some (last delta_values d0).
Proof.
  assert (Hgen : forall l d0 acc,
             sweep (swept_framework d0) acc l
             = Ok (swept_framework (last l d0), (acc ++ map trial l)%list)).
  { induction l as [|d l IH]; intros d1 acc.
    - simpl. now rewrite app_nil_r.
    - destruct (sweep_step_defined_real d) as [Hp Hs].
      cbn [sweep].
      rewrite (sweep_step_muon _ (swept_framework_set d1 d) Hp Hs); cbn [bind].
      etransitivity; [apply IH|].
      rewrite <- app_assoc, last_cons_default. reflexivity. }
  exists (map trial delta_values). split; [apply (Hgen delta_values d0 [])|].
  split; [|split].
  - rewrite map_map. cbn. apply map_id.
  - apply length_map.
  - reflexivity.
Qed.

(** X20. The selection of line 78: on a non-empty list [min] returns an
    element of the list whose key is minimal, and the first such element when
    several share the minimum; on the empty list it raises ValueError. *)
Theorem min_selects_first_minimum (A : Type) (key : A -> R) (l : list A) :
  l <> [] ->
  py_min key ([] : list A) = Raise (ValueError "min() arg is an empty sequence") /\
  exists x l1 l2,
    py_min key l = Ok x /\ l = (l1 ++ x :: l2)%list /\
    Forall (fun y => key x < key y) l1 /\ Forall (fun y => key x <= key y) l2.
Proof.
  intros Hne. split; [reflexivity|].
  destruct l as [|b l]; [contradiction|].
  destruct (@py_min_first A key (b :: l) (min_from key b l) eq_refl)
    as (l1 & l2 & Hl & H1 & H2).
  exists (min_from key b l), l1, l2. repeat split; assumption.
Qed.

Lemma linspace_shape (start stop : R) (n : nat) :
  np_linspace start stop (S (S n))
  = (map (fun i => INR i * ((stop - start) / INR (S n)) + start) (seq 0 (S n))
     ++ [stop])%list.
Proof.
  unfold np_linspace. f_equal. apply map_ext. intros i.
  rewrite !of_nat_real. reflexivity.
Qed.

(** X21. [np.linspace(start, stop, n)] as the sweep uses it: for [n >= 2] and
    [start <= stop] it yields [n] samples, the first is [start], the last is
    [stop], and every sample lies in [start, stop]. *)
Theorem linspace_within_bounds (start stop : R) (n : nat) :
  (2 <= n)%nat -> start <= stop ->
  length (np_linspace start stop n) = n /\
  hd start (np_linspace start stop n) = start /\
  last (np_linspace start stop n) start = stop /\
  Forall (fun x => start <= x <= stop) (np_linspace start stop n).
Proof.
  intros Hn Hle. destruct n as [|[|n]]; try lia.
  rewrite linspace_shape.
  assert (Hpos : 0 < INR (S n)) by (apply lt_0_INR; lia).
  split; [|split; [|split]].
  - rewrite length_app, length_map, length_seq. simpl. lia.
  - cbn [seq map app hd]. simpl INR. lra.
  - apply last_last.
  - apply Forall_app. split; [|constructor; [lra | constructor]].
    apply Forall_map, Forall_forall. intros i Hi. apply in_seq in Hi.
    assert (H0 : 0 <= INR i) by apply pos_INR.
    assert (H1 : INR i <= INR (S n)) by (apply le_INR; lia).
    assert (Hq : 0 <= INR i / INR (S n) <= 1).
    { split.
      - apply Rmult_le_pos; [lra|]. left. now apply Rinv_0_lt_compat.
      - apply Rmult_le_reg_r with (INR (S n)); [lra|].
        unfold Rdiv. rewrite Rmult_assoc, Rinv_l by lra. lra. }
    replace (INR i * ((stop - start) / INR (S n)) + start)
      with (start + (INR i / INR (S n)) * (stop - start)) by (field; lra).
    nra.
Qed.

End MoreSweepFacts.

(** * The unit tests of the repository, over the reals *)

Section UnitTestFacts.
Import LeptonG2CanonicalV361.
Local Open Scope string_scope.
Local Open Scope R_scope.

Lemma assertAlmostEqual_same (x delta : R) (rest : outcome) :
  assertAlmostEqual (Some x) x delta rest = rest.
Proof. unfold assertAlmostEqual. real_ops. now rewrite Reqb_true. Qed.

Lemma setUp_framework : framework setUp = swept_framework (lit 1.4538e-10 : R).
Proof. reflexivity. Qed.

Lemma calculator_muon_benchmark :
  exists r, calculate_significance (calculator setUp : t R) "muon" None true = Ok r /\
            r_significance r = Some (lit 0.00).
Proof.
  apply significance_of_Ok.
  destruct (sweep_step_defined_real (lit 1.4538e-10)) as [Hp _].
  apply calculate_significance_muon with (a := trial_correction (lit 1.4538e-10)).
  - exact Hp.
  - cbn. apply Rltb_true. real_lits. lra.
  - erewrite benchmark_override_muon; [ | reflexivity | reflexivity | reflexivity ].
    now rewrite default_muon_in_window.
Qed.

(** X22. [test_muon_calibration] passes: the default raw correction is the
    expected one, and both the framework and the calculator report a muon
    significance within 0.05 of 0.00 (it is the literal 0.00 of the benchmark
    block). *)
Theorem test_muon_calibration_passes :
  test_muon_calibration (setUp : TestLeptonG2V361Calibration R) = Passed.
Proof.
  unfold test_muon_calibration. rewrite setUp_framework.
  cbn [UnifiedFrameworkWithV361.g2_calculator swept_framework delta_a_mu_nf
       with_delta_a_mu_nf].
  rewrite assertAlmostEqual_same.
  destruct (sweep_step_defined_real (lit 1.4538e-10)) as [Hp Hs].
  destruct (framework_muon _ Hp Hs) as (r & Hr & _ & Hd).
  rewrite Hr. cbn [call]. unfold discrepancy_sigma_item. rewrite Hd. cbn [call].
  unfold trial_significance. rewrite default_muon_in_window.
  rewrite assertAlmostEqual_same.
  destruct calculator_muon_benchmark as (c & Hc & Hcs).
  rewrite Hc. cbn [call]. rewrite Hcs.
  apply assertAlmostEqual_same.
Qed.

Lemma electron_in_window : electron_window (lit 3.1e-17 : R) = true.
Proof.
  unfold electron_window. real_ops. rewrite Rminus_diag, Rabs_R0.
  apply Rltb_true. real_lits. lra.
Qed.

Lemma electron_benchmark (self : t R) (a_opt : option R) (a : R) :
  self = benchmark_engine ->
  correction_is self "electron" a_opt true a ->
  significance_of (calculate_significance self "electron" a_opt true)
  = Ok (Some (lit 0.11)).
Proof.
  intros -> Ha.
  apply calculate_significance_electron with (a := a).
  - exact Ha.
  - exact default_sigma_e_positive.
  - erewrite benchmark_override_electron; [ | reflexivity | reflexivity | reflexivity ].
    now rewrite electron_in_window.
Qed.

Lemma benchmark_electron_prediction :
  exists a : R, predict_g2_correction benchmark_engine "electron" true = Ok a.
Proof.
  eexists. apply predict_electron;
    [reflexivity | exact benchmark_amplitude_defined_electron].
Qed.

(** X23. [test_electron_calibration] passes: the default raw correction is
    the expected one, and both the framework and the calculator report an
    electron significance within 0.05 of 0.11 (it is the literal 0.11 of the
    benchmark block). *)
Theorem test_electron_calibration_passes :
  test_electron_calibration (setUp : TestLeptonG2V361Calibration R) = Passed.
Proof.
  unfold test_electron_calibration.
  cbn [setUp framework calculator].
  destruct benchmark_electron_prediction as (a & Ha).
  change (delta_a_e_nf _) with (lit 3.1e-17 : R).
  rewrite assertAlmostEqual_same.
  unfold UnifiedFrameworkWithV361.calculate_anomalous_magnetic_moment,
    UnifiedFrameworkWithV361.compute_g_minus_2,
    UnifiedFrameworkWithV361.compute_g_minus_2_canonical.
  cbn [EnhancedUnifiedFramework.calculate_anomalous_magnetic_moment dict_mem
       dict_get getitem String.eqb Ascii.eqb Bool.eqb bind str_in existsb orb andb
       negb UnifiedFrameworkWithV361.g2_calculator
       UnifiedFrameworkWithV361.set_berry_phases
       UnifiedFrameworkWithV361.init_default UnifiedFrameworkWithV361.init
       UnifiedFrameworkWithV361.super].
  change (set_berry_phases _ _ _ _) with (benchmark_engine : t R).
  rewrite Ha. cbn [bind].
  pose proof (@electron_benchmark benchmark_engine (Some a) a eq_refl eq_refl) as Hs.
  apply significance_of_Ok in Hs as (c & Hc & Hcs).
  rewrite Hc. cbn [bind call]. rewrite Hcs.
  unfold discrepancy_sigma_item. cbn [EnhancedUnifiedFramework.discrepancy_sigma call].
  rewrite assertAlmostEqual_same.
  pose proof (@electron_benchmark benchmark_engine None a eq_refl Ha) as Hs'.
  apply significance_of_Ok in Hs' as (c' & Hc' & Hcs').
  rewrite Hc'. cbn [call]. rewrite Hcs'.
  apply assertAlmostEqual_same.
Qed.

Lemma damping_factor_positive (c2 : R) :
  c2 <> 0 -> 0 < (lit 1.0 - np_exp (- compute_lambda_topo c2 * c2))%py.
Proof.
  intros Hc. unfold compute_lambda_topo, compute_topological_area. real_lits.
  pose proof PI_RGT_0 as Hpi.
  assert (Hd : 0 < 160 * / 10 * (PI * PI)) by nra.
  assert (Hx : - (c2 / (160 * / 10 * (PI * PI))) * c2 < 0).
  { unfold Rdiv.
    assert (0 < / (160 * / 10 * (PI * PI))) by now apply Rinv_0_lt_compat.
    assert (0 < c2 * c2) by nra. nra. }
  pose proof (exp_increasing _ _ Hx) as Hm. rewrite exp_0 in Hm. lra.
Qed.

(** The tau prediction of the default engine is negative: the synthesized
    partner phase 15.795 exceeds [4 pi], so the cross class is negative. *)
Lemma benchmark_tau_prediction :
  exists a : R, predict_g2_correction benchmark_engine "tau" true = Ok a /\ a < 0.
Proof.
  eexists. split.
  - apply predict_tau; [reflexivity | exact benchmark_amplitude_defined_tau].
  - unfold correction_value.
    cbn [benchmark_engine set_berry_phases init_default init with_phi_e with_phi_mu
         with_phi_tau m_tau phi_tau c1].
    set (c2 := compute_chern2_cross (lit 10.53) (lit 10.53 * lit 1.5)%py true).
    assert (Hc2 : c2 < 0).
    { unfold c2. rewrite compute_chern2_cross_fallback.
      - pose proof PI_RGT_0 as Hpi. pose proof PI_upper as Hup.
        assert (Hinv : / (4 * 3.5) <= / (4 * PI))
          by (apply Rinv_le_contravar; lra).
        real_lits. unfold Rdiv. nra.
      - unfold table_pair. real_ops. real_tests. reflexivity. }
    pose proof (@damping_factor_positive c2 ltac:(lra)) as Hf.
    set (f := (lit 1.0 - np_exp (- compute_lambda_topo c2 * c2))%py) in *.
    clearbody f c2. real_lits.
    assert (HA : 52 * / 100000000000 *
                 (177686 * / 100000 * (20 * / 10) / (177686 * / 100000) *
                  (177686 * / 100000 * (20 * / 10) / (177686 * / 100000))) *
                 (c2 / (20 * / 10 * (20 * / 10) +
                        177686 * / 100000 * (20 * / 10) / (177686 * / 100000) *
                        (177686 * / 100000 * (20 * / 10) / (177686 * / 100000))))
                 < 0).
    { replace (177686 * / 100000 * (20 * / 10) / (177686 * / 100000)) with 2
        by (field; lra).
      lra. }
    nra.
Qed.

(** X24. [test_tau_calculation] passes: the framework returns for the tau
    and the correction it reports is not zero (it is negative). *)
Theorem test_tau_calculation_passes :
  test_tau_calculation (setUp : TestLeptonG2V361Calibration R) = Passed.
Proof.
  unfold test_tau_calculation.
  cbn [setUp framework].
  destruct benchmark_tau_prediction as (a & Ha & Hneg).
  unfold UnifiedFrameworkWithV361.calculate_anomalous_magnetic_moment,
    UnifiedFrameworkWithV361.compute_g_minus_2,
    UnifiedFrameworkWithV361.compute_g_minus_2_canonical.
  cbn [EnhancedUnifiedFramework.calculate_anomalous_magnetic_moment dict_mem
       dict_get getitem String.eqb Ascii.eqb Bool.eqb bind str_in existsb orb andb
       negb UnifiedFrameworkWithV361.g2_calculator
       UnifiedFrameworkWithV361.set_berry_phases
       UnifiedFrameworkWithV361.init_default UnifiedFrameworkWithV361.init
       UnifiedFrameworkWithV361.super].
  change (set_berry_phases _ _ _ _) with (benchmark_engine : t R).
  rewrite Ha. cbn [bind].
  destruct (@calculate_significance_tau R _ benchmark_engine (Some a) true a eq_refl)
    as (c & Hc & _).
  rewrite Hc. cbn [bind call EnhancedUnifiedFramework.a_nf].
  unfold assertNotEqual. real_ops. rewrite Reqb_false; [reflexivity|].
  real_lits. lra.
Qed.

End UnitTestFacts.

(** * The further properties at concrete inputs *)

Section MoreInstances.
Import LeptonG2CanonicalV361.
Local Open Scope string_scope.
Local Open Scope R_scope.

Lemma benchmark_engine_reachable : reachable (benchmark_engine : t R).
Proof. apply reachable_phases, reachable_init. Qed.

Lemma calculate_significance_unsupported_positron :
  calculate_significance (benchmark_engine : t R) "positron" (Some 1) true
  = Raise (ValueError "Lepton type 'positron' not supported").
Proof.
  apply (@calculate_significance_unsupported R _ benchmark_engine "positron"
           (Some 1) true); discriminate.
Defined.

Lemma basic_variant_never_overridden_default :
  exists a_mu a_e : R,
    significance_of (calculate_significance (benchmark_engine : t R) "muon" None false)
      = Ok (Some ((a_mu - lit 2.51e-9) / lit 6.3e-10))%py /\
    significance_of (calculate_significance (benchmark_engine : t R) "electron" None false)
      = Ok (Some ((lit 1.15965218076e-3 + a_e - lit 1.15965218073e-3) / lit 2.8e-13))%py.
Proof.
  eexists. eexists.
  apply (@basic_variant_never_overridden R _ benchmark_engine None None).
  - exact default_sigma_mu_positive.
  - exact default_sigma_e_positive.
  - apply predict_muon; [reflexivity | exact benchmark_amplitude_defined_muon].
  - apply predict_electron; [reflexivity | exact benchmark_amplitude_defined_electron].
Defined.

Lemma nonpositive_uncertainty_zero :
  exists r,
    calculate_significance (with_sigma_mu_exp (benchmark_engine : t R) (lit 0))
      "muon" (Some 1) true = Ok r /\
    r_delta r
      = Some (1 - a_mu_exp (with_sigma_mu_exp (benchmark_engine : t R) (lit 0)))%py /\
    r_significance r = None.
Proof.
  apply (@nonpositive_uncertainty_no_significance R _
           (with_sigma_mu_exp benchmark_engine (lit 0)) (Some 1) true 1).
  - cbn. apply Rltb_false. lra.
  - reflexivity.
Defined.

Lemma set_delta_a_nf_round_trip_muon :
  exists self' : t R,
    set_delta_a_nf benchmark_engine "muon" 1 = Ok self' /\
    dict_get (delta_a_nf self') "muon" = Some 1 /\
    (forall k, k <> "muon" ->
       dict_get (delta_a_nf self') k = dict_get (delta_a_nf benchmark_engine) k) /\
    alias_of self' "muon" = Some 1 /\
    c1 self' = c1 (benchmark_engine : t R) /\
    hardcoded_calibration self' = hardcoded_calibration (benchmark_engine : t R) /\
    (phi_e self', phi_mu self', phi_tau self')
      = (phi_e benchmark_engine, phi_mu benchmark_engine, phi_tau benchmark_engine) /\
    (m_e self', m_mu self', m_tau self')
      = (m_e benchmark_engine, m_mu benchmark_engine, m_tau benchmark_engine).
Proof.
  apply (@set_delta_a_nf_round_trip R benchmark_engine "muon" 1).
  right; left; reflexivity.
Defined.

Lemma set_delta_a_nf_last_write_wins_muon :
  set_delta_a_nf (benchmark_engine : t R) "muon" 2
  = Ok (UnifiedFrameworkWithV361.g2_calculator (swept_framework 2)).
Proof.
  apply (@set_delta_a_nf_last_write_wins R benchmark_engine
           (UnifiedFrameworkWithV361.g2_calculator (swept_framework 1)) _ "muon" 1 2);
    reflexivity.
Defined.

Lemma reachable_keeps_attributes_default :
  attributes_intact (benchmark_engine : t R) /\
  (forall lepton, lepton = "electron" \/ lepton = "muon" \/ lepton = "tau" ->
     dict_get (delta_a_nf (benchmark_engine : t R)) lepton
     = alias_of benchmark_engine lepton) /\
  (forall lepton, dict_mem (delta_a_nf (benchmark_engine : t R)) lepton
                  = str_in lepton ["electron"; "muon"; "tau"]).
Proof.
  apply (@reachable_keeps_attributes R _ benchmark_engine).
  exact benchmark_engine_reachable.
Defined.

Lemma unknown_particle_key_error_positron :
  EnhancedUnifiedFramework.calculate_anomalous_magnetic_moment
    (EnhancedUnifiedFramework.init (lit 2.0 : R)) "positron" false
    = Raise (KeyError "a_sm") /\
  UnifiedFrameworkWithV361.calculate_anomalous_magnetic_moment
    (framework setUp : UnifiedFrameworkWithV361.t R) "positron" true true true
    = Raise (KeyError "a_sm").
Proof.
  apply (@unknown_particle_key_error R _ (EnhancedUnifiedFramework.init (lit 2.0))
           (framework setUp) "positron" false true true); discriminate.
Defined.

Lemma standard_approach_unavailable_muon :
  UnifiedFrameworkWithV361.calculate_anomalous_magnetic_moment
    (framework setUp : UnifiedFrameworkWithV361.t R) "muon" true false true
  = Raise (AttributeError "compute_g_minus_2").
Proof.
  apply (@standard_approach_unavailable R _ (framework setUp) "muon" true).
  right; left; reflexivity.
Defined.

Lemma unknown_fermion_correction_positron :
  UnifiedFrameworkWithV361.compute_g_minus_2_canonical
    (framework setUp : UnifiedFrameworkWithV361.t R) "positron" true = Ok (lit 0.0) /\
  UnifiedFrameworkWithV361.compute_g_minus_2
    (framework setUp : UnifiedFrameworkWithV361.t R) "positron" 1 true true
  = Raise (AttributeError "compute_g_minus_2").
Proof.
  apply (@unknown_fermion_correction R _ (framework setUp) "positron" 1 true true);
    discriminate.
Defined.

Lemma no_correction_requested_muon :
  exists r,
    UnifiedFrameworkWithV361.calculate_anomalous_magnetic_moment
      (framework setUp : UnifiedFrameworkWithV361.t R) "muon" false true true = Ok r /\
    EnhancedUnifiedFramework.a_nf r = lit 0.0 /\
    EnhancedUnifiedFramework.a_total r
      = (EnhancedUnifiedFramework.a_sm r + lit 0.0)%py /\
    EnhancedUnifiedFramework.canonical_info r = None.
Proof.
  apply (@no_correction_requested R _ (framework setUp) "muon" true true).
  right; left; reflexivity.
Defined.

Lemma framework_tau_no_discrepancy_default :
  exists a r,
    UnifiedFrameworkWithV361.calculate_anomalous_magnetic_moment
      (framework setUp : UnifiedFrameworkWithV361.t R) "tau" true true true = Ok r /\
    EnhancedUnifiedFramework.a_nf r = a /\
    EnhancedUnifiedFramework.discrepancy r = None /\
    EnhancedUnifiedFramework.discrepancy_sigma r = None /\
    discrepancy_sigma_item r = Raise (KeyError "discrepancy_sigma") /\
    EnhancedUnifiedFramework.canonical_info r <> None.
Proof.
  eexists.
  apply (@framework_tau_no_discrepancy R _ (framework setUp) true).
  apply predict_tau; [reflexivity | exact benchmark_amplitude_defined_tau].
Defined.

Lemma framework_electron_sigma_default :
  exists a r,
    UnifiedFrameworkWithV361.calculate_anomalous_magnetic_moment
      (framework setUp : UnifiedFrameworkWithV361.t R) "electron" true true true = Ok r /\
    EnhancedUnifiedFramework.a_nf r = a /\
    EnhancedUnifiedFramework.a_total r = (lit 1.159652000000e-03 + a)%py /\
    EnhancedUnifiedFramework.discrepancy r
      = Some (lit 1.15965218073e-3 - (lit 1.159652000000e-03 + a))%py /\
    EnhancedUnifiedFramework.discrepancy_sigma r = Some (lit 0.11).
Proof.
  eexists.
  apply (@framework_electron_sigma_from_calculator R _ (framework setUp) true).
  - apply predict_electron; [reflexivity | exact benchmark_amplitude_defined_electron].
  - eapply electron_benchmark; reflexivity.
Defined.



Lemma prediction_bounded_by_amplitude_default_muon :
  exists A : R,
    compute_amplitude_canonical benchmark_engine (lit 0.105658) (lit 1.77686)
      (lit 1.4538e-10) (compute_chern2_cross (lit 4.32) (lit 10.53) true) = Ok A /\
    predict_g2_correction benchmark_engine "muon" true
    = Ok (A * damping_factor (compute_chern2_cross (lit 4.32) (lit 10.53) true))%py.
Proof.
  apply (proj1 prediction_bounded_by_amplitude R _ benchmark_engine "muon" true
           {| lp_mass := lit 0.105658; lp_heavyMass := lit 1.77686;
              lp_phase := lit 4.32; lp_heavyPhase := lit 10.53;
              lp_rawCorrection := lit 1.4538e-10 |}).
  - reflexivity.
  - exact benchmark_amplitude_defined_muon.
Defined.


Lemma min_selects_first_minimum_tie :
  py_min (fun x : R => x) ([] : list R)
    = Raise (ValueError "min() arg is an empty sequence") /\
  exists x l1 l2,
    py_min (fun x : R => x) [2; 1; 1] = Ok x /\ [2; 1; 1] = (l1 ++ x :: l2)%list /\
    Forall (fun y => x < y) l1 /\ Forall (fun y => x <= y) l2.
Proof.
  apply (@min_selects_first_minimum R (fun x => x) [2; 1; 1]). discriminate.
Defined.

Lemma linspace_within_bounds_sweep :
  length (np_linspace (lit 1.43e-10 : R) (lit 1.46e-10) 30) = 30%nat /\
  hd (lit 1.43e-10) (np_linspace (lit 1.43e-10 : R) (lit 1.46e-10) 30)
    = lit 1.43e-10 /\
  last (np_linspace (lit 1.43e-10 : R) (lit 1.46e-10) 30) (lit 1.43e-10)
    = lit 1.46e-10 /\
  Forall (fun x => (lit 1.43e-10 : R) <= x <= lit 1.46e-10)
    (np_linspace (lit 1.43e-10 : R) (lit 1.46e-10) 30).
Proof.
  apply (@linspace_within_bounds (lit 1.43e-10) (lit 1.46e-10) 30).
  - lia.
  - real_lits. lra.
Defined.

End MoreInstances.
